(** * RAG indexing, retrieval and issue services: a shallow embedding

    This development embeds [services.py] (RepositoryService, ChatService,
    GitHubService) together with the library routines whose behaviour the
    services rely on, and proves properties of the embedded functions.

    Conventions.
    - A Python [str] is a [string]; its characters are the code points
      below 256.
    - A raised exception is a value [Exn] carrying [str(e)]; a service
      answer is a [Response]: the dictionary with ["success": True] and a
      payload, or the one with ["success": False] and an error text.
    - Everything outside the process (git, the file system, the embedding
      model, the language model, the issue tracker) is an oracle taken as an
      argument; the file system and the persisted vector collections form
      an explicit [World] that is threaded through the calls. *)

From Stdlib Require Import ZArith Lia Ascii String List Bool.
From stdpp Require Import base option list gmap strings pretty.

Local Open Scope nat_scope.

(** ** Python built-ins used by the services *)

Module Py.

Definition len (s : string) : nat := String.length s.

(** [s[:n]] *)
Fixpoint take (n : nat) (s : string) : string :=
  match n, s with
  | S k, String c rest => String c (take k rest)
  | _, _ => ""
  end.

(** [s[n:]] *)
Fixpoint drop (n : nat) (s : string) : string :=
  match n, s with
  | S k, String _ rest => drop k rest
  | _, _ => s
  end.

(** [sum(len(s) for s in l)] *)
Definition total_len (l : list string) : nat :=
  foldr (fun s n => len s + n) 0 l.

(** [l[:n]] on a list *)
Definition take_list {A} (n : nat) (l : list A) : list A := firstn n l.

Definition startswith (s p : string) : bool := String.prefix p s.

Definition endswith (s suffix : string) : bool :=
  String.prefix (String.rev suffix) (String.rev s).

(** [sub in s] *)
Fixpoint contains (sub s : string) : bool :=
  String.prefix sub s ||
  match s with
  | "" => false
  | String _ rest => contains sub rest
  end.

(** [c.isspace()] for a code point below 256 *)
Definition isspace (c : ascii) : bool :=
  let n := nat_of_ascii c in
  ((9 <=? n) && (n <=? 13)) || ((28 <=? n) && (n <=? 32))
  || (n =? 133) || (n =? 160).

Fixpoint lstrip (s : string) : string :=
  match s with
  | "" => ""
  | String c rest => if isspace c then lstrip rest else s
  end.

Definition rstrip (s : string) : string := String.rev (lstrip (String.rev s)).

(** [s.strip()] *)
Definition strip (s : string) : string := rstrip (lstrip s).

(** [c.lower()] for a code point below 256 *)
Definition lower_char (c : ascii) : ascii :=
  let n := nat_of_ascii c in
  if ((65 <=? n) && (n <=? 90))
     || ((192 <=? n) && (n <=? 222) && negb (n =? 215))
  then ascii_of_nat (n + 32) else c.

Fixpoint lower (s : string) : string :=
  match s with
  | "" => ""
  | String c rest => String (lower_char c) (lower rest)
  end.

(** [s.split()]: the maximal runs of non-blank characters *)
Fixpoint split_go (cur : option string) (s : string) : list string :=
  match s with
  | "" => option_list (String.rev <$> cur)
  | String a rest =>
      if isspace a
      then option_list (String.rev <$> cur) ++ split_go None rest
      else split_go (Some (String a (default "" cur))) rest
  end.
Definition split (s : string) : list string := split_go None s.

(** [s.split(c)] for a one-character separator *)
Fixpoint split_on (c : ascii) (s : string) : list string :=
  match s with
  | "" => [""]
  | String a rest =>
      if Ascii.eqb a c then "" :: split_on c rest
      else match split_on c rest with
           | h :: t => String a h :: t
           | [] => [String a ""]
           end
  end.

(** [sep.join(l)] *)
Definition join (sep : string) (l : list string) : string := String.concat sep l.

(** [list(s)] *)
Fixpoint chars (s : string) : list string :=
  match s with
  | "" => []
  | String c rest => String c "" :: chars rest
  end.

(** [os.path.join(a, b)] on a POSIX system *)
Definition os_path_join (a b : string) : string :=
  if startswith b "/" then b
  else if String.eqb a "" || endswith a "/" then a +:+ b
  else a +:+ "/" +:+ b.

(** The part of a reversed path before its first slash, and the rest. *)
Fixpoint break_at_slash (s : string) : string * string :=
  match s with
  | "" => ("", "")
  | String c rest =>
      if Ascii.eqb c "/" then ("", s)
      else let '(t, r) := break_at_slash rest in (String c t, r)
  end.

Fixpoint drop_slashes (s : string) : string :=
  match s with
  | "" => ""
  | String c rest => if Ascii.eqb c "/" then drop_slashes rest else s
  end.

(** [os.path.split(p)] on a POSIX system: the head, without the slashes
    that end it unless it is made of slashes only, and the tail, which is
    what follows the last slash. *)
Definition os_path_split (p : string) : string * string :=
  let '(rtail, rhead) := break_at_slash (String.rev p) in
  let head :=
    if String.eqb (drop_slashes rhead) "" then String.rev rhead
    else String.rev (drop_slashes rhead) in
  (head, String.rev rtail).

(** [str(n)] for an integer *)
Definition str_int (n : Z) : string := pretty n.

(** truth value of a string *)
Definition truthy (s : string) : bool := negb (String.eqb s "").

Definition nonempty {A} (l : list A) : bool :=
  match l with [] => false | _ => true end.

End Py.

(** ** Exceptions and service answers *)

Definition Exn := string.

Inductive Response (A : Type) :=
| Success (payload : A)
| Failure (error : string).
Arguments Success {A} payload.
Arguments Failure {A} error.

(** ** langchain_text_splitters: the recursive character splitter *)

Module TextSplitter.

(** The members of [Language] that [language_map] names. *)
Inductive Language := PYTHON | JS | TS | JAVA | CPP | GO | RUBY.

Definition nl : string := String "010" "".
Definition tab : string := String "009" "".

Definition plain_separators : list string := [nl +:+ nl; nl; " "; ""].

Definition kw (word : string) : string := nl +:+ word +:+ " ".

(** [RecursiveCharacterTextSplitter.get_separators_for_language] *)
Definition get_separators_for_language (language : Language) : list string :=
  match language with
  | PYTHON =>
      [kw "class"; kw "def"; nl +:+ tab +:+ "def "] ++ plain_separators
  | JS =>
      map kw ["function"; "const"; "let"; "var"; "class"; "if"; "for";
              "while"; "switch"; "case"; "default"] ++ plain_separators
  | TS =>
      map kw ["enum"; "interface"; "namespace"; "type"; "class";
              "function"; "const"; "let"; "var"; "if"; "for"; "while";
              "switch"; "case"; "default"] ++ plain_separators
  | JAVA =>
      map kw ["class"; "public"; "protected"; "private"; "static"; "if";
              "for"; "while"; "switch"; "case"] ++ plain_separators
  | CPP =>
      map kw ["class"; "void"; "int"; "float"; "double"; "if"; "for";
              "while"; "switch"; "case"] ++ plain_separators
  | GO =>
      map kw ["func"; "var"; "const"; "type"; "if"; "for"; "switch";
              "case"] ++ plain_separators
  | RUBY =>
      map kw ["def"; "class"; "if"; "unless"; "while"; "for"; "do";
              "begin"; "rescue"] ++ plain_separators
  end.

Record RecursiveCharacterTextSplitter := {
  separators : list string;
  chunk_size : nat;
  chunk_overlap : nat;
  keep_separator : bool;
  strip_whitespace : bool
}.

(** The default constructor: [separators=None] stands for the plain list. *)
Definition plain (size overlap : nat) : RecursiveCharacterTextSplitter :=
  {| separators := plain_separators; chunk_size := size;
     chunk_overlap := overlap; keep_separator := true;
     strip_whitespace := true |}.

(** [RecursiveCharacterTextSplitter.from_language(language, **kwargs)];
    the separators of the seven languages hold no regular-expression
    operator, so matching them as patterns is matching them literally. *)
Definition from_language (language : Language) (size overlap : nat)
  : RecursiveCharacterTextSplitter :=
  {| separators := get_separators_for_language language;
     chunk_size := size; chunk_overlap := overlap;
     keep_separator := true; strip_whitespace := true |}.

(** [re.search(pattern, text)] for a literal pattern *)
Definition re_search (pattern text : string) : bool := Py.contains pattern text.

(** [re.split(pattern, text)] for a literal, non-empty pattern: the pieces
    between the successive non-overlapping occurrences, scanning from the
    left. [skip] counts the characters of a matched occurrence still to
    pass; [cur] is the piece being read, reversed. *)
Fixpoint re_split_go (pattern : string) (skip : nat) (cur text : string)
  : list string :=
  match text with
  | "" => [String.rev cur]
  | String c rest =>
      match skip with
      | S k => re_split_go pattern k cur rest
      | O =>
          if String.prefix pattern text
          then String.rev cur :: re_split_go pattern (Py.len pattern - 1) "" rest
          else re_split_go pattern 0 (String c cur) rest
      end
  end.
Definition re_split (pattern text : string) : list string :=
  re_split_go pattern 0 "" text.

Definition not_blank (s : string) : bool := negb (String.eqb s "").

(** [_split_text_with_regex(text, separator, keep_separator)] *)
Definition _split_text_with_regex (text separator : string) (keep : bool)
  : list string :=
  let splits :=
    if String.eqb separator "" then Py.chars text
    else if keep then
      match re_split separator text with
      | first :: others => first :: map (String.append separator) others
      | [] => []
      end
    else re_split separator text in
  filter (fun s => not_blank s = true) splits.

Section Splitter.
Variable sp : RecursiveCharacterTextSplitter.

(** [_join_docs(docs, separator)] *)
Definition _join_docs (docs : list string) (separator : string) : option string :=
  let text := Py.join separator docs in
  let text := if strip_whitespace sp then Py.strip text else text in
  if String.eqb text "" then None else Some text.

Definition sep_if (b : bool) (separator_len : nat) : nat :=
  if b then separator_len else 0.

(** The [while] loop of [_merge_splits] that drops leading pieces of
    [current_doc]. Python reads [current_doc[0]] only while the
    condition holds, and the condition needs [total > 0]; [total] is the
    length of the joined [current_doc], so the list is not empty then. *)
Fixpoint pop_loop (separator_len _len : nat) (current_doc : list string)
  (total : nat) : list string * nat :=
  match current_doc with
  | [] => ([], total)
  | d0 :: rest =>
      if (chunk_overlap sp <? total)
         || ((chunk_size sp <? total + _len + sep_if (0 <? length current_doc) separator_len)
             && (0 <? total))
      then pop_loop separator_len _len rest
             (total - (Py.len d0 + sep_if (1 <? length current_doc) separator_len))
      else (current_doc, total)
  end.

(** One iteration of [for d in splits] in [_merge_splits]; the state is
    [(docs, current_doc, total)]. *)
Definition merge_step (separator : string)
  (st : list string * list string * nat) (d : string)
  : list string * list string * nat :=
  let '(docs, current_doc, total) := st in
  let separator_len := Py.len separator in
  let _len := Py.len d in
  let '(docs, current_doc, total) :=
    if chunk_size sp <? total + _len + sep_if (0 <? length current_doc) separator_len
    then
      if 0 <? length current_doc
      then
        let docs := docs ++ option_list (_join_docs current_doc separator) in
        let '(current_doc, total) := pop_loop separator_len _len current_doc total in
        (docs, current_doc, total)
      else (docs, current_doc, total)
    else (docs, current_doc, total) in
  let current_doc := current_doc ++ [d] in
  (docs, current_doc, total + _len + sep_if (1 <? length current_doc) separator_len).

(** [_merge_splits(splits, separator)] *)
Definition _merge_splits (splits : list string) (separator : string) : list string :=
  let '(docs, current_doc, _) := foldl (merge_step separator) ([], [], 0) splits in
  docs ++ option_list (_join_docs current_doc separator).

(** One iteration of [for s in splits] in [_split_text]; the state is
    [(final_chunks, _good_splits)], and [recurse] is the call on
    [new_separators] when that list is not empty. *)
Definition split_step (_separator : string) (recurse : option (string -> list string))
  (st : list string * list string) (s : string) : list string * list string :=
  let '(final_chunks, _good_splits) := st in
  if Py.len s <? chunk_size sp then (final_chunks, _good_splits ++ [s])
  else
    let final_chunks :=
      if Py.nonempty _good_splits
      then final_chunks ++ _merge_splits _good_splits _separator
      else final_chunks in
    match recurse with
    | None => (final_chunks ++ [s], [])
    | Some other_info => (final_chunks ++ other_info s, [])
    end.

Definition split_loop (_separator : string) (recurse : option (string -> list string))
  (splits : list string) : list string :=
  let '(final_chunks, _good_splits) :=
    foldl (split_step _separator recurse) ([], []) splits in
  if Py.nonempty _good_splits
  then final_chunks ++ _merge_splits _good_splits _separator
  else final_chunks.

(** The part of [_split_text] after the separator is chosen. *)
Definition split_with (separator : string) (recurse : option (string -> list string))
  (text : string) : list string :=
  split_loop (if keep_separator sp then "" else separator) recurse
    (_split_text_with_regex text separator (keep_separator sp)).

(** [_split_text(text, separators)]. The [for] loop that chooses the
    separator and the recursive call on [new_separators] walk the same
    list: [separators[-1]] is the same for a list and for each of its
    non-empty suffixes, so resuming the loop on the tail is the
    function on the tail. On an empty list Python raises at
    [separators[-1]]; the constructors never build one. *)
Fixpoint _split_text (seps : list string) (text : string) : list string :=
  match seps with
  | [] => []
  | _s :: rest =>
      if String.eqb _s "" then split_with "" None text
      else if re_search _s text
      then split_with _s
             (match rest with [] => None | _ => Some (_split_text rest) end) text
      else match rest with
           | [] => split_with _s None text
           | _ => _split_text rest text
           end
  end.

(** The [for] loop of [_split_text] as written: the separator and
    [new_separators], starting from [separator = separators[-1]]. *)
Fixpoint choose_separator (last_sep : string) (seps : list string) (text : string)
  : string * list string :=
  match seps with
  | [] => (last_sep, [])
  | _s :: rest =>
      if String.eqb _s "" then ("", [])
      else if re_search _s text then (_s, rest)
      else choose_separator last_sep rest text
  end.

(** [split_text(text)] *)
Definition split_text (text : string) : list string :=
  _split_text (separators sp) text.

End Splitter.

End TextSplitter.


(** ** Documents, raised exceptions, the outside world *)

Record Document := {
  page_content : string;
  metadata : gmap string string
}.

(** A computation that returns a value or raises. *)
Definition bind_exn {A B} (m : Exn + A) (k : A -> Exn + B) : Exn + B :=
  match m with
  | inl e => inl e
  | inr a => k a
  end.

Notation "'try!' x ':=' m 'in' k" := (bind_exn m (fun x => k))
  (at level 10, x name, m at level 100, k at level 200).

(** Raise when a fault is reported, go on otherwise. *)
Definition check (fault : option Exn) : Exn + unit :=
  match fault with
  | Some e => inl e
  | None => inr tt
  end.

Inductive Message :=
| SystemMessage (content : string)
| HumanMessage (content : string)
| AIMessage (content : string).

Record ChatModel := {
  model : string;
  temperature_tenths : nat
}.

Definition datetime := Z.

(** [str(d)] of a timestamp; only that it is a function of the timestamp
    matters here. *)
Definition str_datetime (d : datetime) : string := pretty d.

Record IssueComment := {
  comment_user_login : string;
  comment_body : string;
  comment_created_at : datetime
}.

(** An issue as the tracker returns it; [get_comments] is the listing of its
    comments in the order the tracker gives them, as it is once fetched (a
    failure of the requests that fetch it is not modelled). *)
Record Issue := {
  title : string;
  number : Z;
  state : string;
  body : option string;
  labels : list string;
  comments : Z;
  html_url : string;
  user_login : string;
  created_at : datetime;
  updated_at : datetime;
  get_comments : list IssueComment
}.

Record Repo := {
  get_issue : Z -> Exn + Issue;
  get_issues : string -> list string -> Exn + list Issue
}.

Section Services.

(** The vectors of the embedding model; their coordinates are not
    modelled, only how close two of them are. *)
Context {Embedding : Type}.

Record IndexEntry := {
  entry_embedding : Embedding;
  entry_document : Document
}.

(** The directories that exist, and the collection persisted under each
    Chroma directory. The collections live outside the temporary clone
    directories. *)
Record World := {
  dirs : gset string;
  collections : gmap string (list IndexEntry)
}.

(** What the services reach outside the process. A function into
    [Exn + _] may raise; an [option Exn] reports a fault of a step that
    returns nothing. [not_a_text_error] is the text of the exception of the
    embedding model when it is given something that is not a text, and
    [empty_batch_error] that of Chroma when it is given no entry to add. *)
Record Env := {
  VECTOR_STORE_PATH : string;
  mkdtemp : gset string -> Exn + string;
  git_blobs : string -> string -> Exn + list (string * string);
  makedirs_fault : string -> option Exn;
  load_embedder_fault : option Exn;
  embed : string -> Embedding;
  embed_fault : list string -> option Exn;
  not_a_text_error : Exn;
  distance : Embedding -> Embedding -> Z;
  chroma_open_fault : string -> option Exn;
  persist_fault : string -> option Exn;
  empty_batch_error : Exn;
  llm_init_fault : ChatModel -> option Exn;
  llm_invoke : ChatModel -> list Message -> Exn + string;
  get_repo : string -> Exn + Repo
}.

Variable env : Env.

(** A computation on the world that returns a value or raises. *)
Definition M (A : Type) : Type := World -> (Exn + A) * World.

Definition ret {A} (a : A) : M A := fun w => (inr a, w).

Definition bind {A B} (m : M A) (k : A -> M B) : M B :=
  fun w => match m w with
           | (inl e, w') => (inl e, w')
           | (inr a, w') => k a w'
           end.

Definition lift {A} (r : Exn + A) : M A := fun w => (r, w).

Definition modify (f : World -> World) : M unit := fun w => (inr tt, f w).

Notation "'do!' x ':=' m 'in' k" := (bind m (fun x => k))
  (at level 10, x name, m at level 100, k at level 200).

Definition add_dir (d : string) (w : World) : World :=
  {| dirs := {[d]} ∪ dirs w; collections := collections w |}.

(** [shutil.rmtree(d, ignore_errors=True)] *)
Definition rmtree (d : string) (w : World) : World :=
  {| dirs := dirs w ∖ {[d]}; collections := collections w |}.

(** [os.path.exists(d)] *)
Definition path_exists (d : string) (w : World) : bool :=
  bool_decide (d ∈ dirs w).

(** The directories after [os.makedirs(name, exist_ok=True)]: the missing
    parents are made first, then the directory itself. Each call works on a
    shorter path, so one step of [fuel] per character is enough. *)
Fixpoint makedirs_go (fuel : nat) (name : string) (ds : gset string) : gset string :=
  match fuel with
  | O => ds
  | S fuel =>
      let '(head, tail) := Py.os_path_split name in
      let '(head, tail) :=
        if String.eqb tail "" then Py.os_path_split head else (head, tail) in
      if Py.truthy head && Py.truthy tail && negb (bool_decide (head ∈ ds))
      then
        let ds := makedirs_go fuel head ds in
        if String.eqb tail "." then ds else {[name]} ∪ ds
      else {[name]} ∪ ds
  end.

(** [os.makedirs(path, exist_ok=True)] *)
Definition makedirs (path : string) : M unit :=
  do! _ := lift (check (makedirs_fault env path)) in
  modify (fun w =>
    {| dirs := makedirs_go (S (Py.len path)) path (dirs w);
       collections := collections w |}).

(** *** langchain_chroma *)

(** Insertion of an entry among entries sorted by distance to [q], before
    those that are as close: entries at the same distance stay in the order
    in which they were added. *)
Fixpoint insert_by (q : Embedding) (e : IndexEntry) (l : list IndexEntry)
  : list IndexEntry :=
  match l with
  | [] => [e]
  | x :: rest =>
      if (distance env q (entry_embedding e) <=? distance env q (entry_embedding x))%Z
      then e :: l
      else x :: insert_by q e rest
  end.

Definition sort_by (q : Embedding) (l : list IndexEntry) : list IndexEntry :=
  foldr (fun e acc => insert_by q e acc) [] l.

(** The collection under [persist_directory]; opening a directory that
    holds none gives an empty one. *)
Definition collection (persist_directory : string) (w : World) : list IndexEntry :=
  default [] (collections w !! persist_directory).

(** The entries made of documents: each with the embedding of its text. *)
Definition index_entries (documents : list Document) : list IndexEntry :=
  map (fun d => {| entry_embedding := embed env (page_content d);
                   entry_document := d |}) documents.

(** [Chroma.from_documents(documents, embedding, persist_directory)]: the
    collection under the directory is opened (created when it is not
    there) and the documents are added to it with their embeddings, each
    under a new identifier. Nothing that the collection held is removed.
    Adding no document at all is refused. *)
Definition from_documents (documents : list Document) (persist_directory : string)
  : M unit :=
  do! _ := lift (check (embed_fault env (map page_content documents))) in
  do! _ := lift (check (persist_fault env persist_directory)) in
  if Py.nonempty documents
  then
    modify (fun w =>
      {| dirs := dirs w;
         collections :=
           <[persist_directory :=
               collection persist_directory w ++ index_entries documents]>
             (collections w) |})
  else lift (inl (empty_batch_error env)).

(** The [k] entries nearest to a query vector, nearest first. *)
Definition similarity_search_by_vector (persist_directory : string) (w : World)
  (q : Embedding) (k : nat) : list Document :=
  map entry_document (firstn k (sort_by q (collection persist_directory w))).

(** [vectorstore.similarity_search(query, k)], which is what the
    retriever runs. *)
Definition similarity_search (persist_directory : string) (w : World)
  (query : string) (k : nat) : Exn + list Document :=
  try! _ := check (embed_fault env [query]) in
  inr (similarity_search_by_vector persist_directory w (embed env query) k).

(** *** RepositoryService *)

Record IndexResult := {
  file_count : nat;
  chunk_count : nat;
  vector_store_path : string
}.

Definition file_filter (file_extensions : list string) (file_path : string) : bool :=
  existsb (fun ext => Py.endswith file_path ext) file_extensions.

(** [item.name]: the last component of a path in the repository *)
Definition file_name (path : string) : string :=
  default "" (last (Py.split_on "/" path)).

(** [os.path.splitext(name)[1]] *)
Fixpoint splitext_go (name ext : string) : string :=
  match name with
  | "" => ""
  | String c rest =>
      if Ascii.eqb c "."
      then if existsb (fun s => negb (String.eqb s ".")) (Py.chars rest)
           then String c ext else ""
      else splitext_go rest (String c ext)
  end.
Definition file_type (name : string) : string := splitext_go (String.rev name) "".

(** [GitLoader(clone_url, repo_path, branch, file_filter).load()]: one
    document per text blob of the checked-out tree whose path in the
    workspace passes the filter. *)
Definition GitLoader_load (clone_url repo_path branch : string)
  (filter_fn : string -> bool) : Exn + list Document :=
  try! blobs := git_blobs env clone_url branch in
  inr (map (fun b : string * string =>
              {| page_content := b.2;
                 metadata :=
                   list_to_map
                     [("source", b.1); ("file_path", b.1);
                      ("file_name", file_name b.1);
                      ("file_type", file_type (file_name b.1))] |})
         (filter (fun b : string * string =>
                    filter_fn (Py.os_path_join repo_path b.1) = true) blobs)).

Definition language_map : gmap string TextSplitter.Language :=
  list_to_map
    [(".py", TextSplitter.PYTHON); (".js", TextSplitter.JS);
     (".jsx", TextSplitter.JS); (".ts", TextSplitter.TS);
     (".tsx", TextSplitter.TS); (".java", TextSplitter.JAVA);
     (".cpp", TextSplitter.CPP); (".c", TextSplitter.CPP);
     (".go", TextSplitter.GO); (".rb", TextSplitter.RUBY)].

(** The loop that picks [language], from [language = Language.PYTHON]. *)
Fixpoint select_language (file_extensions : list string) : TextSplitter.Language :=
  match file_extensions with
  | [] => TextSplitter.PYTHON
  | ext :: rest =>
      match language_map !! ext with
      | Some language => language
      | None => select_language rest
      end
  end.

(** [text_splitter.split_documents(documents)]: the chunks of each
    document in turn, each with the metadata of its document. *)
Definition split_documents (sp : TextSplitter.RecursiveCharacterTextSplitter)
  (documents : list Document) : list Document :=
  flat_map (fun doc =>
              map (fun chunk => {| page_content := chunk; metadata := metadata doc |})
                (TextSplitter.split_text sp (page_content doc)))
    documents.

Definition text_splitter (file_extensions : list string)
  : TextSplitter.RecursiveCharacterTextSplitter :=
  TextSplitter.from_language (select_language file_extensions) 1000 200.

Definition store_path (repo_id : Z) : string :=
  Py.os_path_join (VECTOR_STORE_PATH env) ("repo_" +:+ Py.str_int repo_id).

(** The [try] block after [temp_dir] is bound. *)
Definition index_in (temp_dir repo_url branch : string)
  (file_extensions : list string) (repo_id : Z) : M (Response IndexResult) :=
  do! documents :=
    lift (GitLoader_load repo_url temp_dir branch (file_filter file_extensions)) in
  if negb (Py.nonempty documents)
  then ret (Failure "No files found matching the selected extensions")
  else
    let splits := split_documents (text_splitter file_extensions) documents in
    do! _ := lift (check (load_embedder_fault env)) in
    let vector_store_path := store_path repo_id in
    do! _ := makedirs vector_store_path in
    do! _ := from_documents splits vector_store_path in
    ret (Success {| file_count := length documents;
                    chunk_count := length splits;
                    vector_store_path := vector_store_path |}).

(** [RepositoryService.load_and_index_repository] *)
Definition load_and_index_repository (repo_url branch : string)
  (file_extensions : list string) (repo_id : Z) (w : World)
  : Response IndexResult * World :=
  let '(outcome, temp_dir, w) :=
    match mkdtemp env (dirs w) with
    | inl e => (inl e, None, w)
    | inr d =>
        let '(r, w) := index_in d repo_url branch file_extensions repo_id (add_dir d w) in
        (r, Some d, w)
    end in
  let result :=
    match outcome with
    | inr r => r
    | inl e => Failure e
    end in
  let w :=
    match temp_dir with
    | Some d => if Py.truthy d && path_exists d w then rmtree d w else w
    | None => w
    end in
  (result, w).

(** [RepositoryService.get_vector_store]: the handle is the directory,
    once the embedding model is loaded and Chroma has opened the
    directory. *)
Definition get_vector_store (path : string) : Exn + string :=
  try! _ := check (load_embedder_fault env) in
  try! _ := check (chroma_open_fault env path) in
  inr path.

(** *** ChatService *)

Record ContextDoc := {
  content : string;
  source : string
}.

Record ChatAnswer := {
  answer : string;
  context : list ContextDoc
}.

Definition system_prompt (context_block : string) : string :=
  "You are an AI assistant that helps developers understand code.
Use the following pieces of context from the codebase to answer the question.
If you don't know the answer, just say that you don't know, don't make up an answer.
Provide code examples when relevant and be specific about file locations.

Context from codebase:
" +:+ context_block.

Definition format_docs (docs : list Document) : string :=
  Py.join (TextSplitter.nl +:+ TextSplitter.nl) (map page_content docs).

(** [msg[key]], raising [KeyError(key)] *)
Definition getitem (msg : gmap string string) (key : string) : Exn + string :=
  match msg !! key with
  | Some v => inr v
  | None => inl ("'" +:+ key +:+ "'")
  end.

(** The loop that builds [formatted_history]. *)
Fixpoint format_history (chat_history : list (gmap string string))
  : Exn + list Message :=
  match chat_history with
  | [] => inr []
  | msg :: rest =>
      try! role := getitem msg "role" in
      try! text := getitem msg "content" in
      try! formatted := format_history rest in
      inr ((if String.eqb role "user" then HumanMessage text else AIMessage text)
           :: formatted)
  end.

Definition chat_llm : ChatModel :=
  {| model := "gemini-1.5-flash"; temperature_tenths := 0 |}.

(** What a retriever can be invoked on: a query text, as
    [get_relevant_documents(question)] passes, or the input of the chain,
    the dictionary with the keys ["input"] and ["chat_history"]. *)
Inductive RetrieverInput :=
  | Query (text : string)
  | ChainInput (input : string) (chat_history : list Message).

(** [embed_query] of the embedding model of [get_vector_store]: it works
    on texts, and raises on a dictionary. *)
Definition embed_query (x : RetrieverInput) : Exn + Embedding :=
  match x with
  | Query text =>
      try! _ := check (embed_fault env [text]) in
      inr (embed env text)
  | ChainInput _ _ => inl (not_a_text_error env)
  end.

(** [retriever.invoke(x)] for the retriever of [as_retriever] with
    [k = 3]: the similarity search of the store on the embedding of [x]. *)
Definition retriever_invoke (path : string) (w : World) (x : RetrieverInput)
  : Exn + list Document :=
  try! q := embed_query x in
  inr (similarity_search_by_vector path w q 3).

(** [retrieval_chain.invoke({"input": question, "chat_history": ...})].
    The chain starts with a dictionary of branches, and each branch
    receives the whole input of the chain: the ["context"] branch is
    [retriever | format_docs], so the retriever is invoked on the input
    dictionary, not on the question. *)
Definition retrieval_chain (path : string) (w : World) (question : string)
  (formatted_history : list Message) : Exn + string :=
  try! docs := retriever_invoke path w (ChainInput question formatted_history) in
  llm_invoke env chat_llm
    ([SystemMessage (system_prompt (format_docs docs))]
     ++ formatted_history ++ [HumanMessage question]).

Definition context_doc (doc : Document) : ContextDoc :=
  {| content := Py.take 500 (page_content doc);
     source := default "Unknown" (metadata doc !! "source") |}.

(** [ChatService.get_response] *)
Definition get_response (question path : string)
  (chat_history : list (gmap string string)) (w : World) : Response ChatAnswer :=
  let outcome :=
    try! _ := check (llm_init_fault env chat_llm) in
    try! vectorstore := get_vector_store path in
    try! formatted_history := format_history chat_history in
    try! response := retrieval_chain vectorstore w question formatted_history in
    try! retrieved_docs := retriever_invoke vectorstore w (Query question) in
    inr {| answer := response;
           context := map context_doc (Py.take_list 3 retrieved_docs) |} in
  match outcome with
  | inr r => Success r
  | inl e => Failure e
  end.

(** *** GitHubService *)

Record CommentData := {
  c_user : string;
  c_body : string;
  c_created_at : string
}.

Record IssueData := {
  d_title : string;
  d_number : Z;
  d_state : string;
  d_body : string;
  d_labels : list string;
  d_comments_count : Z;
  d_url : string;
  d_user : string;
  d_created_at : datetime;
  d_updated_at : datetime;
  d_comments : list CommentData;
  d_ai_analysis : option string
}.

(** [x or default] on an optional string *)
Definition or_else (x : option string) (dflt : string) : string :=
  match x with
  | Some s => if Py.truthy s then s else dflt
  | None => dflt
  end.

Definition comment_data (c : IssueComment) : CommentData :=
  {| c_user := comment_user_login c;
     c_body := comment_body c;
     c_created_at := str_datetime (comment_created_at c) |}.

(** [issue_data] before the analysis is attached *)
Definition issue_data (issue : Issue) : IssueData :=
  {| d_title := title issue;
     d_number := number issue;
     d_state := state issue;
     d_body := or_else (body issue) "No description provided";
     d_labels := labels issue;
     d_comments_count := comments issue;
     d_url := html_url issue;
     d_user := user_login issue;
     d_created_at := created_at issue;
     d_updated_at := updated_at issue;
     d_comments := map comment_data (Py.take_list 5 (get_comments issue));
     d_ai_analysis := None |}.

Definition analysis_prompt (data : IssueData) : string :=
  "Analyze this GitHub issue and provide:
1. A brief summary of the problem
2. Possible root causes
3. Suggested solutions or next steps
4. Priority level (High/Medium/Low)

Issue Title: " +:+ d_title data +:+ "
Issue Body: " +:+ Py.take 1000 (d_body data) +:+ "
Labels: " +:+ (if Py.nonempty (d_labels data)
             then Py.join ", " (d_labels data) else "None") +:+ "
State: " +:+ d_state data.

Definition issue_llm : ChatModel :=
  {| model := "gemini-1.5-flash"; temperature_tenths := 3 |}.

Definition with_analysis (data : IssueData) (analysis : string) : IssueData :=
  {| d_title := d_title data; d_number := d_number data;
     d_state := d_state data; d_body := d_body data;
     d_labels := d_labels data; d_comments_count := d_comments_count data;
     d_url := d_url data; d_user := d_user data;
     d_created_at := d_created_at data; d_updated_at := d_updated_at data;
     d_comments := d_comments data; d_ai_analysis := Some analysis |}.

(** [GitHubService.analyze_issue]. The two clients are taken as built
    (their constructors are not modelled as failure points), and the
    comments as fetched. *)
Definition analyze_issue (repo_name : string) (issue_number : Z) : Response IssueData :=
  let outcome :=
    try! repo := get_repo env repo_name in
    try! issue := get_issue repo issue_number in
    let data := issue_data issue in
    try! analysis := llm_invoke env issue_llm [HumanMessage (analysis_prompt data)] in
    inr (with_analysis data analysis) in
  match outcome with
  | inr r => Success r
  | inl e => Failure e
  end.

Record IssueSummary := {
  s_number : Z;
  s_title : string;
  s_state : string;
  s_labels : list string;
  s_created_at : string;
  s_comments : Z;
  s_url : string
}.

Definition issue_summary (issue : Issue) : IssueSummary :=
  {| s_number := number issue;
     s_title := title issue;
     s_state := state issue;
     s_labels := labels issue;
     s_created_at := str_datetime (created_at issue);
     s_comments := comments issue;
     s_url := html_url issue |}.

(** The keyword test of the loop body: [true] when the issue is kept. *)
Definition keyword_match (keywords : string) (issue : Issue) : bool :=
  if Py.truthy keywords
  then
    let keyword_list := Py.split (Py.lower keywords) in
    let issue_text := Py.lower (title issue +:+ " " +:+ or_else (body issue) "") in
    existsb (fun kw => Py.contains kw issue_text) keyword_list
  else true.

(** [for issue in repo.get_issues(...)]: the listing is an iterator that
    hands out one issue per step; the loop is given what the iterator has
    left and returns what it has left at the end, with [issues_list]. *)
Fixpoint search_loop (keywords : string) (max_results : Z)
  (listing : list Issue) (issues_list : list IssueSummary)
  : list IssueSummary * list Issue :=
  match listing with
  | [] => (issues_list, [])
  | issue :: rest =>
      if (max_results <=? Z.of_nat (length issues_list))%Z
      then (issues_list, rest)
      else if keyword_match keywords issue
      then search_loop keywords max_results rest (issues_list ++ [issue_summary issue])
      else search_loop keywords max_results rest issues_list
  end.

Definition label_list (label_text : string) : list string :=
  if Py.truthy label_text then map Py.strip (Py.split_on "," label_text) else [].

(** [GitHubService.search_issues], with what is left of the listing of
    the tracker when the function returns (nothing when none was opened).
    The listing is taken as the tracker would give it in full: a request
    for a later page that fails while the loop runs is not modelled. *)
Definition search_issues (repo_name keywords label_text state_filter : string)
  (max_results : Z) : Response (list IssueSummary) * list Issue :=
  let outcome :=
    try! repo := get_repo env repo_name in
    try! listing := get_issues repo state_filter (label_list label_text) in
    inr (search_loop keywords max_results listing []) in
  match outcome with
  | inr (issues_list, remaining) => (Success issues_list, remaining)
  | inl e => (Failure e, [])
  end.

End Services.

Arguments IndexEntry : clear implicits.
Arguments World : clear implicits.
Arguments Env : clear implicits.

(** ** A small concrete world, for running the services *)

Module Demo.

Definition issue_of (n : Z) (heading : string) (cs : list IssueComment) : Issue :=
  {| title := heading; number := n; state := "open";
     body := Some "It fails on start."; labels := ["bug"];
     comments := Z.of_nat (length cs);
     html_url := "https://tracker.test/issues/" +:+ Py.str_int n;
     user_login := "ana"; created_at := 100%Z; updated_at := 200%Z;
     get_comments := cs |}.

Definition comment_at (t : datetime) : IssueComment :=
  {| comment_user_login := "bo"; comment_body := "same here";
     comment_created_at := t |}.

(** Six comments, oldest first, as the tracker lists them. *)
Definition six_comments : list IssueComment :=
  map comment_at [1; 2; 3; 4; 5; 6]%Z.

Definition issue7 : Issue := issue_of 7 "Crash on start" six_comments.
Definition issue8 : Issue := issue_of 8 "Slow search" [].
Definition issue9 : Issue := issue_of 9 "Typo in docs" [].

Definition repo : Repo :=
  {| get_issue := fun n =>
       if (n =? 7)%Z then inr issue7 else inl "404 Not Found";
     get_issues := fun _ _ => inr [issue7; issue8; issue9] |}.

Definition blobs : list (string * string) :=
  [("app.py", "print('hi')"); ("web/index.js", "let x = 1;");
   ("pkg/__init__.py", ""); ("README.md", "docs")].

(** Embeddings are stood for by numbers: a text by its length. *)
Definition env : Env nat :=
  {| VECTOR_STORE_PATH := "/data/vector_stores";
     mkdtemp := fun _ => inr "/tmp/tmpclone";
     git_blobs := fun _ _ => inr blobs;
     makedirs_fault := fun _ => None;
     load_embedder_fault := None;
     embed := fun s => Py.len s;
     embed_fault := fun _ => None;
     not_a_text_error := "'dict' object has no attribute 'replace'";
     distance := fun a b => Z.abs (Z.of_nat a - Z.of_nat b);
     chroma_open_fault := fun _ => None;
     persist_fault := fun _ => None;
     empty_batch_error := "Expected IDs to be a non-empty list, got 0 IDs";
     llm_init_fault := fun _ => None;
     llm_invoke := fun _ _ => inr "It crashes because of X.";
     get_repo := fun name =>
       if String.eqb name "ana/app" then inr repo else inl "404 Not Found" |}.

(** The same world with a language model that is out of quota. *)
Definition env_llm_down : Env nat :=
  {| VECTOR_STORE_PATH := VECTOR_STORE_PATH env;
     mkdtemp := mkdtemp env;
     git_blobs := git_blobs env;
     makedirs_fault := makedirs_fault env;
     load_embedder_fault := load_embedder_fault env;
     embed := embed env;
     embed_fault := embed_fault env;
     not_a_text_error := not_a_text_error env;
     distance := distance env;
     chroma_open_fault := chroma_open_fault env;
     persist_fault := persist_fault env;
     empty_batch_error := empty_batch_error env;
     llm_init_fault := llm_init_fault env;
     llm_invoke := fun _ _ => inl "429 quota exceeded";
     get_repo := get_repo env |}.

Definition empty_world : World nat := {| dirs := ∅; collections := ∅ |}.

Definition turn (role text : string) : gmap string string :=
  {[ "role" := role; "content" := text ]}.

Definition history : list (gmap string string) :=
  [turn "user" "What does app.py do?"; turn "assistant" "It prints hi.";
   turn "system" "Be brief."].

Definition url : string := "https://git.test/ana/app".

(** The world after indexing the Python and JavaScript files as
    repository 5. *)
Definition indexed_world : World nat :=
  (load_and_index_repository env url "main" [".py"; ".js"] 5 empty_world).2.

Definition store : string := "/data/vector_stores/repo_5".

(** Repository 5 built from its Python files, then built again from its
    JavaScript files. *)
Definition first_build : Response IndexResult * World nat :=
  load_and_index_repository env url "main" [".py"] 5 empty_world.

Definition second_build : Response IndexResult * World nat :=
  load_and_index_repository env url "main" [".js"] 5 first_build.2.

Definition chunk_of (path text : string) : Document :=
  {| page_content := text;
     metadata :=
       list_to_map [("source", path); ("file_path", path);
                    ("file_name", file_name path);
                    ("file_type", file_type (file_name path))] |}.

Definition question : string := "What does app.py do?".

End Demo.

(** ** Vocabulary of the statements *)

(** A text fits in the chunk size of a splitter. *)
Definition fits (sp : TextSplitter.RecursiveCharacterTextSplitter) (c : string) : Prop :=
  Py.len c <= TextSplitter.chunk_size sp.

(** The state [(docs, current_doc, total)] of [_merge_splits] is sound:
    [total] is the length of the joined [current_doc], which fits, and so
    does every text already in [docs]. *)
Definition merge_inv (sp : TextSplitter.RecursiveCharacterTextSplitter)
  (st : list string * list string * nat) : Prop :=
  st.2 = Py.total_len st.1.2
  /\ st.2 <= TextSplitter.chunk_size sp
  /\ Forall (fits sp) st.1.1.

(** The state [(final_chunks, _good_splits)] of [_split_text] is sound. *)
Definition split_inv (sp : TextSplitter.RecursiveCharacterTextSplitter)
  (st : list string * list string) : Prop :=
  Forall (fits sp) st.1 /\ Forall (fits sp) st.2.

(** The message a turn of the history becomes. *)
Definition turn_message (msg : gmap string string) (m : Message) : Prop :=
  exists role text,
    msg !! "role" = Some role /\ msg !! "content" = Some text
    /\ (role = "user" -> m = HumanMessage text)
    /\ (role <> "user" -> m = AIMessage text).

(** The text before the body in the prompt of [analyze_issue], and the
    text after it. *)
Definition prompt_head (heading : string) : string :=
  "Analyze this GitHub issue and provide:
1. A brief summary of the problem
2. Possible root causes
3. Suggested solutions or next steps
4. Priority level (High/Medium/Low)

Issue Title: " +:+ heading +:+ "
Issue Body: ".

Definition prompt_tail (label_names : list string) (status : string) : string :=
  "
Labels: " +:+ (if Py.nonempty label_names
               then Py.join ", " label_names else "None") +:+ "
State: " +:+ status.

(** An issue passes the keyword test of [search_issues]. *)
Definition kept (keywords : string) (issue : Issue) : Prop :=
  keyword_match keywords issue = true.

Global Instance kept_dec keywords issue : Decision (kept keywords issue).
Proof. unfold kept. apply _. Defined.

(** The cap is reached once the issues seen hold [max_results] kept ones. *)
Definition cap_reached (keywords : string) (max_results : Z) (seen : list Issue) : Prop :=
  (max_results <= Z.of_nat (length (filter (kept keywords) seen)))%Z.

(** ** models.py: the text of a record *)

Module Models.

(** Of the model of a chat message, the fields that its text reads. *)
Record ChatMessage := {
  role : string;
  message_content : string
}.

(** [ChatMessage.__str__] *)
Definition ChatMessage_str (m : ChatMessage) : string :=
  role m +:+ ": " +:+ Py.take 50 (message_content m).

End Models.

(** ** More vocabulary *)

(** A text does not begin with a blank. *)
Definition no_blank_start (s : string) : Prop :=
  match s with
  | "" => True
  | String c _ => Py.isspace c = false
  end.

(** A text neither begins nor ends with a blank. *)
Definition stripped (s : string) : Prop :=
  no_blank_start s /\ no_blank_start (String.rev s).

(** Every character of a text is a blank. *)
Fixpoint all_blank (s : string) : bool :=
  match s with
  | "" => true
  | String c rest => Py.isspace c && all_blank rest
  end.

(** The number of occurrences of a character in a text. *)
Fixpoint count_char (c : ascii) (s : string) : nat :=
  match s with
  | "" => 0
  | String a rest => (if Ascii.eqb a c then 1 else 0) + count_char c rest
  end.

(** The same issue with another title and body. *)
Definition with_text (issue : Issue) (heading : string) (text : option string) : Issue :=
  {| title := heading; number := number issue; state := state issue;
     body := text; labels := labels issue; comments := comments issue;
     html_url := html_url issue; user_login := user_login issue;
     created_at := created_at issue; updated_at := updated_at issue;
     get_comments := get_comments issue |}.

(** ** More concrete worlds *)

Module Worlds.


(** The world of [Demo] with a repository of three short Python files. *)
Definition three_files : list (string * string) :=
  [("a.py", "x = 1"); ("b.py", "y = 2"); ("lib/c.py", "z = x + y")].

Definition env_three_files : Env nat :=
  {| VECTOR_STORE_PATH := VECTOR_STORE_PATH Demo.env;
     mkdtemp := mkdtemp Demo.env;
     git_blobs := fun _ _ => inr three_files;
     makedirs_fault := makedirs_fault Demo.env;
     load_embedder_fault := load_embedder_fault Demo.env;
     embed := embed Demo.env;
     embed_fault := embed_fault Demo.env;
     not_a_text_error := not_a_text_error Demo.env;
     distance := distance Demo.env;
     chroma_open_fault := chroma_open_fault Demo.env;
     persist_fault := persist_fault Demo.env;
     empty_batch_error := empty_batch_error Demo.env;
     llm_init_fault := llm_init_fault Demo.env;
     llm_invoke := llm_invoke Demo.env;
     get_repo := get_repo Demo.env |}.

Definition three_files_build : Response IndexResult * World nat :=
  load_and_index_repository env_three_files Demo.url "main" [".py"] 3 Demo.empty_world.

(** A history whose second turn has no role. *)
Definition broken_history : list (gmap string string) :=
  [Demo.turn "user" "What does app.py do?"; {[ "content" := "It prints hi." ]}].

(** An issue without a body. *)
Definition bare_issue : Issue := with_text Demo.issue8 "Slow search" None.

End Worlds.
Example ex_strip : Py.strip "  a b  " = "a b".
Proof. reflexivity. Qed.

Example ex_split1 :
  TextSplitter.split_text (TextSplitter.from_language TextSplitter.PYTHON 10 3)
    "hello world foo bar baz" = ["hello"; "world foo"; "bar baz"].
Proof. vm_compute. reflexivity. Qed.


Example ex_re_split : TextSplitter.re_split "," "a,,b," = ["a"; ""; "b"; ""].
Proof. reflexivity. Qed.

Example ex_split_classes :
  TextSplitter.split_text (TextSplitter.from_language TextSplitter.PYTHON 15 0)
    "
class A:
    x = 1

class B:
    y = 2" = ["class A:"; "x = 1"; "class B:"; "y = 2"].
Proof. vm_compute. reflexivity. Qed.

Example ex_index :
  (load_and_index_repository Demo.env "https://git.test/ana/app" "main" [".py"] 5
     Demo.empty_world).1
  = Success {| file_count := 2; chunk_count := 1;
               vector_store_path := "/data/vector_stores/repo_5" |}.
Proof. vm_compute. reflexivity. Qed.

Example ex_search :
  search_issues Demo.env "ana/app" "crash SEARCH" "bug, ui" "open" 10
  = (Success [issue_summary Demo.issue7; issue_summary Demo.issue8], []).
Proof. vm_compute. reflexivity. Qed.

Example ex_label_list : label_list " bug , ui" = ["bug"; "ui"].
Proof. vm_compute. reflexivity. Qed.

Example ex_file_type :
  map file_type ["a.py"; ".bashrc"; "a.tar.gz"; "Makefile"] = [".py"; ""; ".gz"; ""].
Proof. vm_compute. reflexivity. Qed.

Example ex_os_path_split :
  map Py.os_path_split ["/data/x"; "/data"; "a"; "a/b/"; "a//b"; "/"]
  = [("/data", "x"); ("/", "data"); ("", "a"); ("a/b", ""); ("a", "b"); ("/", "")].
Proof. vm_compute. reflexivity. Qed.

Example ex_makedirs :
  dirs (load_and_index_repository Demo.env "https://git.test/ana/app" "main" [".py"] 5
          Demo.empty_world).2
  = {[ "/"; "/data"; "/data/vector_stores"; "/data/vector_stores/repo_5" ]}.
Proof. vm_compute. reflexivity. Qed.

(** A build that selects only the empty [pkg/__init__.py] has one document
    and no chunk; Chroma refuses the empty batch. *)
Example ex_blank_build :
  (load_and_index_repository Demo.env "https://git.test/ana/app" "main" ["__init__.py"] 5
     Demo.empty_world).1
  = Failure "Expected IDs to be a non-empty list, got 0 IDs".
Proof. vm_compute. reflexivity. Qed.
(** ** Facts about the string built-ins *)

Section PyFacts.

Lemma append_nil_l s : "" +:+ s = s.
Proof. reflexivity. Qed.

Lemma append_cons c s1 s2 : String c s1 +:+ s2 = String c (s1 +:+ s2).
Proof. reflexivity. Qed.

Lemma append_nil_r s : s +:+ "" = s.
Proof. induction s as [|c s IH]; [done|]. by rewrite append_cons, IH. Qed.

Lemma append_assoc s1 s2 s3 : (s1 +:+ s2) +:+ s3 = s1 +:+ (s2 +:+ s3).
Proof. induction s1 as [|c s1 IH]; [done|]. by rewrite !append_cons, IH. Qed.

Lemma len_append s1 s2 : Py.len (s1 +:+ s2) = Py.len s1 + Py.len s2.
Proof.
  induction s1 as [|c s1 IH]; [done|].
  rewrite append_cons. unfold Py.len in *. simpl. by rewrite IH.
Qed.

Lemma len_zero s : Py.len s = 0 -> s = "".
Proof. by destruct s. Qed.

Lemma rev_app_spec s1 s2 : String.rev_app s1 s2 = String.rev s1 +:+ s2.
Proof.
  unfold String.rev. revert s2.
  induction s1 as [|c s1 IH]; intros s2; [done|].
  simpl. rewrite IH, (IH (String c "")), append_assoc. done.
Qed.

Lemma rev_cons c s : String.rev (String c s) = String.rev s +:+ String c "".
Proof. unfold String.rev at 1. simpl. apply rev_app_spec. Qed.

Lemma len_rev s : Py.len (String.rev s) = Py.len s.
Proof.
  induction s as [|c s IH]; [done|].
  rewrite rev_cons, len_append, IH. unfold Py.len. simpl. lia.
Qed.

Lemma len_lstrip s : Py.len (Py.lstrip s) <= Py.len s.
Proof.
  induction s as [|c s IH]; [done|].
  simpl. destruct (Py.isspace c); [|done].
  unfold Py.len in *. simpl. lia.
Qed.

Lemma len_strip s : Py.len (Py.strip s) <= Py.len s.
Proof.
  unfold Py.strip, Py.rstrip. rewrite len_rev.
  etrans; [apply len_lstrip|]. rewrite len_rev. apply len_lstrip.
Qed.

Lemma len_take n s : Py.len (Py.take n s) <= n.
Proof.
  revert s. induction n as [|n IH]; intros [|c s]; simpl; try lia.
  specialize (IH s). unfold Py.len in *. simpl. lia.
Qed.

Lemma take_all n s : Py.len s <= n -> Py.take n s = s.
Proof.
  revert s. induction n as [|n IH]; intros [|c s] H; simpl; try done.
  - unfold Py.len in H. simpl in H. lia.
  - f_equal. apply IH. unfold Py.len in *. simpl in H. lia.
Qed.

Lemma eqb_empty_false c s : String.eqb (String c s) "" = false.
Proof. reflexivity. Qed.

End PyFacts.

(** ** Facts about the recursive splitter *)

Section JoinFacts.

Lemma join_cons x l : Py.join "" (x :: l) = x +:+ Py.join "" l.
Proof.
  destruct l as [|y l]; simpl.
  - by rewrite append_nil_r.
  - done.
Qed.

Lemma join_app l1 l2 : Py.join "" (l1 ++ l2) = Py.join "" l1 +:+ Py.join "" l2.
Proof.
  induction l1 as [|x l1 IH]; [done|].
  rewrite <- app_comm_cons, !join_cons, IH, append_assoc. done.
Qed.

Lemma len_join l : Py.len (Py.join "" l) = Py.total_len l.
Proof.
  induction l as [|x l IH]; [done|].
  rewrite join_cons, len_append, IH. done.
Qed.

Lemma total_len_app l1 l2 :
  Py.total_len (l1 ++ l2) = Py.total_len l1 + Py.total_len l2.
Proof.
  induction l1 as [|x l1 IH]; [done|].
  simpl. unfold Py.total_len in *. simpl. rewrite IH. lia.
Qed.

Lemma total_len_cons x l : Py.total_len (x :: l) = Py.len x + Py.total_len l.
Proof. reflexivity. Qed.

Lemma join_filter_not_blank l :
  Py.join "" (filter (fun s => TextSplitter.not_blank s = true) l) = Py.join "" l.
Proof.
  induction l as [|x l IH]; [done|].
  rewrite filter_cons. destruct x as [|c x].
  - simpl decide. rewrite join_cons. cbn. exact IH.
  - rewrite decide_True by done. rewrite !join_cons, IH. done.
Qed.

Lemma filter_not_blank_spec l :
  Forall (fun s => s <> "") (filter (fun s => TextSplitter.not_blank s = true) l).
Proof.
  apply Forall_forall. intros x Hx.
  apply list_elem_of_filter in Hx as [Hx _].
  intros ->. discriminate Hx.
Qed.

Lemma join_chars s : Py.join "" (Py.chars s) = s.
Proof.
  induction s as [|c s IH]; [done|].
  change (Py.chars (String c s)) with (String c "" :: Py.chars s).
  rewrite join_cons, IH. done.
Qed.

Lemma len_le_total x l : x ∈ l -> Py.len x <= Py.total_len l.
Proof.
  induction 1 as [x l|x y l _ IH]; rewrite total_len_cons; lia.
Qed.

End JoinFacts.

Section RegexFacts.
Import TextSplitter.

Lemma prefix_drop pattern text :
  String.prefix pattern text = true ->
  text = pattern +:+ Py.drop (Py.len pattern) text.
Proof.
  revert text. induction pattern as [|a p IH]; intros text H.
  - by destruct text.
  - destruct text as [|b t]; [discriminate|].
    simpl in H. destruct (ascii_dec a b) as [->|]; [|discriminate].
    rewrite append_cons. f_equal. apply IH, H.
Qed.

Lemma drop_pred a p c rest :
  Py.drop (Py.len (String a p) - 1) rest = Py.drop (Py.len (String a p)) (String c rest).
Proof. unfold Py.len. simpl. by rewrite Nat.sub_0_r. Qed.

Lemma re_split_go_join pattern text : forall skip cur,
  pattern <> "" ->
  match re_split_go pattern skip cur text with
  | first :: others =>
      first +:+ Py.join "" (map (String.append pattern) others)
      = String.rev cur +:+ Py.drop skip text
  | [] => False
  end.
Proof.
  induction text as [|c rest IH]; intros skip cur Hp.
  - simpl. by destruct skip.
  - destruct skip as [|k].
    + cbn [re_split_go]. destruct (String.prefix pattern (String c rest)) eqn:E.
      * specialize (IH (Py.len pattern - 1) "" Hp).
        destruct (re_split_go pattern (Py.len pattern - 1) "" rest) as [|f o];
          [done|].
        rewrite map_cons, join_cons, append_assoc, IH.
        change (String.rev "") with "". rewrite append_nil_l.
        destruct pattern as [|a p]; [done|].
        rewrite (drop_pred a p c rest). f_equal. symmetry. apply (prefix_drop _ _ E).
      * specialize (IH 0 (String c cur) Hp).
        destruct (re_split_go pattern 0 (String c cur) rest) as [|f o]; [done|].
        rewrite IH, rev_cons, append_assoc. by destruct rest.
    + cbn [re_split_go]. specialize (IH k cur Hp).
      by destruct (re_split_go pattern k cur rest).
Qed.

(** The pieces of a text, put end to end, are the text. *)
Lemma split_regex_join text separator :
  Py.join "" (_split_text_with_regex text separator true) = text.
Proof.
  unfold _split_text_with_regex. rewrite join_filter_not_blank.
  destruct (String.eqb_spec separator "") as [->|Hne].
  - apply join_chars.
  - pose proof (re_split_go_join separator text 0 "" Hne) as H.
    unfold re_split. destruct (re_split_go separator 0 "" text) as [|f o]; [done|].
    rewrite join_cons, H. by destruct text.
Qed.

Lemma split_regex_not_blank text separator keep :
  Forall (fun s => s <> "") (_split_text_with_regex text separator keep).
Proof. apply filter_not_blank_spec. Qed.

Lemma split_regex_chars text keep :
  Forall (fun s => Py.len s = 1) (_split_text_with_regex text "" keep).
Proof.
  unfold _split_text_with_regex. simpl String.eqb. cbv iota.
  apply Forall_forall. intros x Hx.
  apply list_elem_of_filter in Hx as [_ Hx].
  induction text as [|c t IH]; [by apply elem_of_nil in Hx|].
  apply elem_of_cons in Hx as [->|Hx]; [done|auto].
Qed.

End RegexFacts.

Section MergeFacts.
Import TextSplitter.
Variable sp : RecursiveCharacterTextSplitter.


Lemma sep_if_0 b : sep_if b 0 = 0.
Proof. by destruct b. Qed.

Lemma join_docs_len docs t :
  _join_docs sp docs "" = Some t -> Py.len t <= Py.total_len docs.
Proof.
  unfold _join_docs. rewrite <- len_join.
  destruct (strip_whitespace sp).
  - destruct (String.eqb _ ""); [done|]. intros [= <-]. apply len_strip.
  - destruct (String.eqb _ ""); [done|]. by intros [= <-].
Qed.

Lemma join_docs_ext l1 l2 :
  Py.join "" l1 = Py.join "" l2 -> _join_docs sp l1 "" = _join_docs sp l2 "".
Proof. unfold _join_docs. by intros ->. Qed.

Lemma pop_loop_spec _len cur : forall total,
  total = Py.total_len cur ->
  (pop_loop sp 0 _len cur total).2 = Py.total_len (pop_loop sp 0 _len cur total).1
  /\ ((pop_loop sp 0 _len cur total).2 + _len <= chunk_size sp
      \/ (pop_loop sp 0 _len cur total).2 = 0).
Proof.
  induction cur as [|d0 rest IH]; intros total Ht.
  - simpl. subst. split; [done|by right].
  - cbn [pop_loop]. rewrite !sep_if_0, !Nat.add_0_r.
    destruct (_ || _) eqn:E.
    + apply IH. subst. rewrite total_len_cons. lia.
    + simpl. split; [done|].
      apply orb_false_elim in E as [_ E].
      apply andb_false_elim in E as [E|E].
      * left. apply Nat.ltb_ge in E. lia.
      * right. apply Nat.ltb_ge in E. lia.
Qed.

Lemma merge_step_inv st d :
  Py.len d <= chunk_size sp -> merge_inv sp st -> merge_inv sp (merge_step sp "" st d).
Proof.
  destruct st as [[docs cur] total]. intros Hd (Ht & Hle & Hdocs).
  simpl in Ht, Hle, Hdocs. unfold merge_step.
  change (Py.len "") with 0. rewrite !sep_if_0, !Nat.add_0_r.
  destruct (chunk_size sp <? total + Py.len d) eqn:E.
  - destruct (0 <? length cur) eqn:Ec.
    + pose proof (pop_loop_spec (Py.len d) cur total Ht) as [Hp1 Hp2].
      destruct (pop_loop sp 0 (Py.len d) cur total) as [cur' total'].
      simpl in Hp1, Hp2. unfold merge_inv. simpl.
      rewrite total_len_app, total_len_cons, ?sep_if_0.
      change (Py.total_len []) with 0.
      split; [lia|]. split; [lia|].
      apply Forall_app. split; [done|].
      destruct (_join_docs sp cur "") as [t|] eqn:Ej; simpl; [|done].
      apply Forall_singleton. apply join_docs_len in Ej. unfold fits. lia.
    + destruct cur; [|discriminate]. unfold merge_inv.
      change (Py.total_len []) with 0 in Ht. subst total. cbn [fst snd app].
      rewrite total_len_cons, ?sep_if_0.
      change (Py.total_len []) with 0.
      split; [lia|]. split; [lia|done].
  - apply Nat.ltb_ge in E. unfold merge_inv. simpl.
    rewrite total_len_app, total_len_cons, ?sep_if_0.
    change (Py.total_len []) with 0.
    split; [lia|]. split; [lia|done].
Qed.

Lemma merge_fold_inv splits : forall st,
  Forall (fits sp) splits -> merge_inv sp st ->
  merge_inv sp (foldl (merge_step sp "") st splits).
Proof.
  induction splits as [|d splits IH]; intros st Hs Hst; [done|].
  apply Forall_cons in Hs as [Hd Hs]. simpl. apply IH; [done|].
  by apply merge_step_inv.
Qed.

(** Every text that [_merge_splits] returns fits in [chunk_size]. *)
Lemma merge_splits_bound splits :
  Forall (fits sp) splits -> Forall (fits sp) (_merge_splits sp splits "").
Proof.
  intros Hs. unfold _merge_splits.
  assert (merge_inv sp ([], [], 0)) as H0 by (repeat split; simpl; [lia|done]).
  pose proof (merge_fold_inv splits _ Hs H0) as (Ht & Hle & Hdocs).
  destruct (foldl (merge_step sp "") ([], [], 0) splits) as [[docs cur] total].
  simpl in *. apply Forall_app. split; [done|].
  destruct (_join_docs sp cur "") as [t|] eqn:Ej; simpl; [|done].
  apply Forall_singleton. apply join_docs_len in Ej. unfold fits. lia.
Qed.

Lemma merge_step_small docs cur d :
  Py.total_len cur + Py.len d <= chunk_size sp ->
  merge_step sp "" (docs, cur, Py.total_len cur) d
  = (docs, cur ++ [d], Py.total_len (cur ++ [d])).
Proof.
  intros H. unfold merge_step. change (Py.len "") with 0.
  rewrite !sep_if_0, !Nat.add_0_r.
  destruct (chunk_size sp <? Py.total_len cur + Py.len d) eqn:E.
  { apply Nat.ltb_lt in E. lia. }
  rewrite total_len_app, total_len_cons. change (Py.total_len []) with 0.
  by rewrite sep_if_0, !Nat.add_0_r.
Qed.

Lemma merge_fold_small splits : forall docs cur,
  Py.total_len cur + Py.total_len splits <= chunk_size sp ->
  foldl (merge_step sp "") (docs, cur, Py.total_len cur) splits
  = (docs, cur ++ splits, Py.total_len (cur ++ splits)).
Proof.
  induction splits as [|d splits IH]; intros docs cur H.
  - by rewrite app_nil_r.
  - rewrite total_len_cons in H. cbn [foldl].
    rewrite merge_step_small by lia. rewrite IH.
    + by rewrite <- app_assoc.
    + rewrite total_len_app, total_len_cons. change (Py.total_len []) with 0. lia.
Qed.

(** Pieces that fit together in [chunk_size] are merged into one text. *)
Lemma merge_splits_small splits :
  Py.total_len splits <= chunk_size sp ->
  _merge_splits sp splits "" = option_list (_join_docs sp splits "").
Proof.
  intros H. unfold _merge_splits.
  change 0 with (Py.total_len []) at 1.
  rewrite (merge_fold_small splits [] []) by (change (Py.total_len []) with 0; lia).
  done.
Qed.

Lemma split_fold_good _separator recurse splits : forall final good,
  Forall (fun s => Py.len s < chunk_size sp) splits ->
  foldl (split_step sp _separator recurse) (final, good) splits
  = (final, good ++ splits).
Proof.
  induction splits as [|s splits IH]; intros final good Hs.
  - by rewrite app_nil_r.
  - apply Forall_cons in Hs as [Hlt Hs]. cbn [foldl].
    unfold split_step at 2. apply Nat.ltb_lt in Hlt. rewrite Hlt.
    rewrite IH by done. by rewrite <- app_assoc.
Qed.

(** A text whose pieces are all short and fit together in [chunk_size]
    comes back as the one text [_join_docs] makes of them. *)
Lemma split_loop_small recurse splits :
  Forall (fun s => Py.len s < chunk_size sp) splits ->
  Py.total_len splits <= chunk_size sp ->
  split_loop sp "" recurse splits = option_list (_join_docs sp splits "").
Proof.
  intros Hs Hle. unfold split_loop. rewrite split_fold_good by done.
  rewrite app_nil_l. destruct splits as [|s splits].
  - simpl. unfold _join_docs. simpl. by destruct (strip_whitespace sp).
  - cbn [Py.nonempty]. rewrite app_nil_l. by apply merge_splits_small.
Qed.

Lemma split_step_inv recurse st s :
  match recurse with
  | None => Py.len s <= chunk_size sp
  | Some other_info => Forall (fits sp) (other_info s)
  end ->
  split_inv sp st -> split_inv sp (split_step sp "" recurse st s).
Proof.
  destruct st as [final good]. intros Hs [Hf Hg]. simpl in Hf, Hg.
  unfold split_step. destruct (Py.len s <? chunk_size sp) eqn:E.
  - apply Nat.ltb_lt in E. split; simpl; [done|].
    apply Forall_app. split; [done|]. apply Forall_singleton.
    unfold fits. lia.
  - assert (Forall (fits sp)
              (if Py.nonempty good then final ++ _merge_splits sp good "" else final))
      as Hf'.
    { destruct (Py.nonempty good); [|done].
      apply Forall_app. split; [done|]. by apply merge_splits_bound. }
    destruct recurse as [other_info|]; split; simpl; try done.
    + apply Forall_app. by split.
    + apply Forall_app. split; [done|]. by apply Forall_singleton.
Qed.

Lemma split_loop_bound recurse splits :
  Forall (fun s => match recurse with
                   | None => Py.len s <= chunk_size sp
                   | Some other_info => Forall (fits sp) (other_info s)
                   end) splits ->
  Forall (fits sp) (split_loop sp "" recurse splits).
Proof.
  intros Hs. unfold split_loop.
  assert (forall st, split_inv sp st ->
            split_inv sp (foldl (split_step sp "" recurse) st splits)) as Hfold.
  { induction splits as [|s splits IH]; intros st Hst; [done|].
    apply Forall_cons in Hs as [Hd Hs]. cbn [foldl]. apply IH; [done|].
    by apply split_step_inv. }
  specialize (Hfold ([], [])). destruct (foldl _ _ splits) as [final good].
  destruct Hfold as [Hf Hg]; [by split|]. simpl in Hf, Hg.
  destruct (Py.nonempty good); [|done].
  apply Forall_app. split; [done|]. by apply merge_splits_bound.
Qed.

(** [_split_text] is the method as written: the loop chooses the separator
    and [new_separators], the text is split with that separator, and the
    method is called again, on [new_separators], for the pieces that are
    too long. *)
Lemma split_text_as_written seps text :
  seps <> [] ->
  _split_text sp seps text
  = split_with sp (choose_separator (default "" (last seps)) seps text).1
      match (choose_separator (default "" (last seps)) seps text).2 with
      | [] => None
      | new_separators => Some (_split_text sp new_separators)
      end text.
Proof.
  induction seps as [|_s rest IH]; [done|]. intros _.
  cbn [_split_text choose_separator].
  destruct (String.eqb _s ""); [done|].
  destruct (re_search _s text); [by destruct rest|].
  destruct rest as [|s' rest']; [done|].
  rewrite IH by done. done.
Qed.

Hypothesis keep : keep_separator sp = true.

(** A text shorter than [chunk_size] is never cut: whichever separator is
    chosen, its pieces are merged back into the one text. *)
Lemma split_with_small separator recurse text :
  Py.len text < chunk_size sp ->
  split_with sp separator recurse text = option_list (_join_docs sp [text] "").
Proof.
  intros Hlt. unfold split_with. rewrite keep.
  pose proof (split_regex_join text separator) as Hj.
  assert (Py.total_len (_split_text_with_regex text separator true) = Py.len text)
    as Hsum by (by rewrite <- len_join, Hj).
  rewrite split_loop_small.
  - f_equal. apply join_docs_ext. rewrite Hj. simpl. done.
  - apply Forall_forall. intros x Hx. apply len_le_total in Hx. lia.
  - lia.
Qed.

Lemma split_text_small seps text :
  seps <> [] -> Py.len text < chunk_size sp ->
  _split_text sp seps text = option_list (_join_docs sp [text] "").
Proof.
  intros Hne Hlt. induction seps as [|_s rest IH]; [done|].
  cbn [_split_text]. destruct (String.eqb _s ""); [by apply split_with_small|].
  destruct (re_search _s text); [by apply split_with_small|].
  destruct rest as [|s' rest']; [by apply split_with_small|].
  by apply IH.
Qed.

Hypothesis size_pos : 1 <= chunk_size sp.

(** When the separators end with the empty one, every chunk fits in
    [chunk_size]. *)
Lemma split_text_bound seps : forall text,
  last seps = Some "" -> Forall (fits sp) (_split_text sp seps text).
Proof.
  induction seps as [|_s rest IH]; intros text Hlast; [done|].
  cbn [_split_text]. destruct (String.eqb_spec _s "") as [->|Hs].
  - unfold split_with. rewrite keep. apply split_loop_bound.
    eapply Forall_impl; [apply split_regex_chars|].
    intros x Hx. simpl in Hx. lia.
  - destruct rest as [|s' rest'].
    { simpl in Hlast. congruence. }
    assert (last (s' :: rest') = Some "") as Hlast' by done.
    destruct (re_search _s text); [|by apply IH].
    unfold split_with. rewrite keep. apply split_loop_bound.
    apply Forall_forall. intros x _. by apply IH.
Qed.

End MergeFacts.

Section LanguageFacts.
Import TextSplitter.

Lemma separators_end_empty language :
  last (get_separators_for_language language) = Some "".
Proof. by destruct language. Qed.

Lemma separators_not_nil language : get_separators_for_language language <> [].
Proof. by destruct language. Qed.

(** A text shorter than the chunk size gives its stripped text as the one
    chunk, or no chunk when nothing is left of it. *)
Lemma split_text_short language size overlap text :
  Py.len text < size ->
  split_text (from_language language size overlap) text
  = if String.eqb (Py.strip text) "" then [] else [Py.strip text].
Proof.
  intros Hlt. unfold split_text.
  rewrite split_text_small; [|done|apply separators_not_nil|done].
  unfold _join_docs. cbn [strip_whitespace from_language Py.join String.concat].
  by destruct (String.eqb (Py.strip text) "").
Qed.

Lemma split_text_chunks_bound language size overlap text :
  1 <= size ->
  Forall (fun c => Py.len c <= size)
    (split_text (from_language language size overlap) text).
Proof.
  intros Hsize. unfold split_text.
  apply (split_text_bound (from_language language size overlap)); [done|done|].
  apply separators_end_empty.
Qed.

End LanguageFacts.

(** ** The build pipeline *)

Section BuildFacts.
Context {Embedding : Type}.
Variable env : Env Embedding.

Lemma filter_none {A} (P : A -> Prop) `{!forall x, Decision (P x)} (l : list A) :
  Forall (fun x => ~ P x) l -> filter P l = [].
Proof.
  induction 1 as [|x l Hx _ IH]; [done|].
  rewrite filter_cons, decide_False by done. exact IH.
Qed.

Lemma load_none_match clone_url repo_path branch file_extensions blobs :
  git_blobs env clone_url branch = inr blobs ->
  Forall (fun b : string * string =>
            file_filter file_extensions (Py.os_path_join repo_path b.1) = false) blobs ->
  GitLoader_load env clone_url repo_path branch (file_filter file_extensions) = inr [].
Proof.
  intros Hb Hnone. unfold GitLoader_load. rewrite Hb. simpl.
  rewrite filter_none; [done|].
  eapply Forall_impl; [exact Hnone|]. intros b Hf. simpl in Hf. congruence.
Qed.


Lemma insert_by_perm q e l : insert_by env q e l ≡ₚ e :: l.
Proof.
  induction l as [|x rest IH]; [done|]. simpl.
  destruct (_ <=? _)%Z; [done|]. rewrite IH. apply Permutation_swap.
Qed.

(** Sorting by distance keeps every entry. *)
Lemma sort_by_perm q l : sort_by env q l ≡ₚ l.
Proof.
  induction l as [|e rest IH]; [done|]. unfold sort_by in *. simpl.
  by rewrite insert_by_perm, IH.
Qed.

(** A query that asks for as many entries as the collection holds returns
    every document of the collection. *)
Lemma search_all path (w : World Embedding) q k e :
  e ∈ collection path w ->
  length (collection path w) <= k ->
  entry_document e ∈ similarity_search_by_vector env path w q k.
Proof.
  intros He Hk. unfold similarity_search_by_vector.
  apply list_elem_of_fmap_2. rewrite take_ge.
  - by rewrite sort_by_perm.
  - by rewrite sort_by_perm.
Qed.

(** What a query returns are documents of the collection. *)
Lemma search_sound path (w : World Embedding) query k docs :
  similarity_search env path w query k = inr docs ->
  Forall (fun doc => exists e, e ∈ collection path w /\ entry_document e = doc) docs.
Proof.
  unfold similarity_search, similarity_search_by_vector.
  destruct (embed_fault env [query]); [done|]. cbn [check bind_exn].
  intros [= <-]. apply Forall_forall. intros doc Hdoc.
  apply list_elem_of_fmap in Hdoc as (e & -> & He).
  exists e. split; [|done].
  apply elem_of_take in He as (i & He & _).
  apply list_elem_of_lookup_2 in He. by rewrite sort_by_perm in He.
Qed.

Lemma collection_insert path entries (w : World Embedding) ds :
  collection path
    {| dirs := ds; collections := <[path := entries]> (collections w) |} = entries.
Proof. unfold collection. simpl. by rewrite lookup_insert_eq. Qed.

(** What a successful build went through, and what it left. *)
Lemma load_success repo_url branch file_extensions repo_id (w w' : World Embedding) r :
  load_and_index_repository env repo_url branch file_extensions repo_id w
    = (Success r, w') ->
  exists d documents,
    mkdtemp env (dirs w) = inr d
    /\ GitLoader_load env repo_url d branch (file_filter file_extensions) = inr documents
    /\ documents <> []
    /\ r = {| file_count := length documents;
              chunk_count :=
                length (split_documents (text_splitter file_extensions) documents);
              vector_store_path := store_path env repo_id |}
    /\ collections w'
       = <[store_path env repo_id :=
             collection (store_path env repo_id) w
             ++ index_entries env
                  (split_documents (text_splitter file_extensions) documents)]>
           (collections w).
Proof.
  unfold load_and_index_repository. intros H.
  destruct (mkdtemp env (dirs w)) as [e|d] eqn:Hd.
  { simpl in H. congruence. }
  exists d. unfold index_in, bind, lift, ret, makedirs, from_documents, modify, check in H.
  destruct (GitLoader_load env repo_url d branch (file_filter file_extensions))
    as [e|documents] eqn:Hload.
  { simpl in H. congruence. }
  exists documents.
  destruct documents as [|doc rest].
  { simpl in H. congruence. }
  cbn [Py.nonempty negb] in H. cbv iota in H.
  destruct (load_embedder_fault env).
  { simpl in H. congruence. }
  destruct (makedirs_fault env (store_path env repo_id)).
  { simpl in H. congruence. }
  destruct (embed_fault env _).
  { simpl in H. congruence. }
  destruct (persist_fault env (store_path env repo_id)).
  { simpl in H. congruence. }
  destruct (Py.nonempty (split_documents (text_splitter file_extensions) (doc :: rest))).
  2:{ simpl in H. congruence. }
  cbn beta iota in H.
  assert (forall (x : World Embedding),
            collections (if Py.truthy d && path_exists d x then rmtree d x else x)
            = collections x) as Hfin by (intros x; by destruct (_ && _)).
  injection H as Hr Hw.
  split; [done|]. split; [done|]. split; [done|]. split; [done|].
  rewrite <- Hw, Hfin. done.
Qed.

End BuildFacts.

(** C1. When the clone succeeds and no file of the repository passes the
    extension filter, [load_and_index_repository] answers with a failure
    ("No files found matching the selected extensions"), never with a
    success, and no collection is written. *)
Theorem C1_no_matching_file_fails {Embedding} (env : Env Embedding)
    repo_url branch file_extensions repo_id (w : World Embedding) d blobs :
  mkdtemp env (dirs w) = inr d ->
  git_blobs env repo_url branch = inr blobs ->
  Forall (fun b : string * string =>
            file_filter file_extensions (Py.os_path_join d b.1) = false) blobs ->
  (load_and_index_repository env repo_url branch file_extensions repo_id w).1
    = Failure "No files found matching the selected extensions"
  /\ collections (load_and_index_repository env repo_url branch file_extensions repo_id w).2
     = collections w.
Proof.
  intros Hd Hb Hnone. unfold load_and_index_repository. rewrite Hd.
  unfold index_in, bind, lift.
  rewrite (load_none_match env _ _ _ _ _ Hb Hnone). simpl.
  split; [done|]. by destruct (_ && _).
Qed.

Lemma C1_witness :
  (load_and_index_repository Demo.env "https://git.test/ana/app" "main" [".rs"] 5
     Demo.empty_world).1
    = Failure "No files found matching the selected extensions"
  /\ collections
       (load_and_index_repository Demo.env "https://git.test/ana/app" "main" [".rs"] 5
          Demo.empty_world).2
     = collections Demo.empty_world.
Proof.
  apply (C1_no_matching_file_fails Demo.env _ _ _ _ _ "/tmp/tmpclone" Demo.blobs).
  - reflexivity.
  - reflexivity.
  - repeat constructor.
Defined.



(** C4, as the code has it. The language of the splitter is the one mapped
    to the first extension, in the order of the caller, that
    [language_map] knows; when it knows none of them the language is
    Python, and the splitter is the Python one. *)
Theorem C4_language_choice (file_extensions : list string) :
  (forall before ext after language,
     file_extensions = before ++ ext :: after ->
     Forall (fun e => language_map !! e = None) before ->
     language_map !! ext = Some language ->
     text_splitter file_extensions = TextSplitter.from_language language 1000 200)
  /\ (Forall (fun e => language_map !! e = None) file_extensions ->
      text_splitter file_extensions
      = TextSplitter.from_language TextSplitter.PYTHON 1000 200).
Proof.
  unfold text_splitter. split.
  - intros before ext after language -> Hb He. f_equal.
    induction Hb as [|e before Hn _ IH]; simpl.
    + by rewrite He.
    + by rewrite Hn.
  - intros Hall. f_equal.
    induction Hall as [|e rest Hn _ IH]; [done|]. simpl. by rewrite Hn.
Qed.

Lemma C4_witness :
  text_splitter [".md"; ".tsx"; ".py"]
    = TextSplitter.from_language TextSplitter.TS 1000 200
  /\ text_splitter [".md"; ".txt"]
     = TextSplitter.from_language TextSplitter.PYTHON 1000 200.
Proof.
  destruct (C4_language_choice [".md"; ".tsx"; ".py"]) as [Hfirst _].
  destruct (C4_language_choice [".md"; ".txt"]) as [_ Hnone].
  split.
  - apply (Hfirst [".md"] ".tsx" [".py"] TextSplitter.TS); [reflexivity| |reflexivity].
    repeat constructor.
  - apply Hnone. repeat constructor.
Defined.

(** C4, as the claim states it, fails: [".md"] has no mapping, and the
    splitter is the Python one, which splits at class and function
    definitions first, not the plain one. *)
Lemma C4_counterexample :
  language_map !! ".md" = None
  /\ text_splitter [".md"] = TextSplitter.from_language TextSplitter.PYTHON 1000 200
  /\ text_splitter [".md"] <> TextSplitter.plain 1000 200
  /\ TextSplitter.separators (text_splitter [".md"])
     = [TextSplitter.kw "class"; TextSplitter.kw "def";
        TextSplitter.nl +:+ TextSplitter.tab +:+ "def "]
       ++ TextSplitter.separators (TextSplitter.plain 1000 200).
Proof.
  split; [reflexivity|]. split; [reflexivity|]. split; [discriminate|reflexivity].
Qed.

(** C8, as the code has it. A document shorter than 200 characters gives
    exactly one chunk, its text without the blanks around it, unless the
    text is empty or all blanks: then it gives no chunk. Every chunk of
    every document has at most 1000 characters. *)
Theorem C8_chunks (file_extensions : list string) :
  (forall doc,
     Py.len (page_content doc) < 200 ->
     split_documents (text_splitter file_extensions) [doc]
     = if String.eqb (Py.strip (page_content doc)) "" then []
       else [ {| page_content := Py.strip (page_content doc);
                 metadata := metadata doc |} ])
  /\ (forall documents,
        Forall (fun chunk => Py.len (page_content chunk) <= 1000)
          (split_documents (text_splitter file_extensions) documents)).
Proof.
  unfold text_splitter. split.
  - intros doc Hlt. unfold split_documents. cbn [flat_map].
    rewrite split_text_short by lia. rewrite app_nil_r.
    by destruct (String.eqb (Py.strip (page_content doc)) "").
  - intros documents. unfold split_documents.
    induction documents as [|doc rest IH]; [done|].
    cbn [flat_map]. apply Forall_app. split; [|done].
    apply Forall_fmap.
    eapply Forall_impl; [apply split_text_chunks_bound; lia|]. done.
Qed.

Lemma C8_witness :
  split_documents (text_splitter [".py"])
    [ {| page_content := " print('hi')
"; metadata := {[ "source" := "app.py" ]} |} ]
  = [ {| page_content := "print('hi')"; metadata := {[ "source" := "app.py" ]} |} ]
  /\ Forall (fun chunk => Py.len (page_content chunk) <= 1000)
       (split_documents (text_splitter [".py"])
          [ {| page_content := " print('hi')
"; metadata := {[ "source" := "app.py" ]} |} ]).
Proof.
  destruct (C8_chunks [".py"]) as [Hshort Hbound]. split.
  - rewrite Hshort by (vm_compute; lia). reflexivity.
  - apply Hbound.
Defined.

(** C8, as the claim states it, fails: an empty file, which is shorter than
    200 characters, gives no chunk. *)
Lemma C8_counterexample :
  Py.len (page_content {| page_content := ""; metadata := {[ "source" := "pkg/__init__.py" ]} |})
    < 200
  /\ split_documents (text_splitter [".py"])
       [ {| page_content := ""; metadata := {[ "source" := "pkg/__init__.py" ]} |} ]
     = [].
Proof. split; [vm_compute; lia|reflexivity]. Qed.

(** C2, as the code has it. A second build on the same repository id adds
    its entries to the collection the first build wrote: after it the
    collection holds what was there before, then the entries of the first
    build, then those of the second, and every entry of the first build is
    still returned by a query that asks for at least as many entries as the
    collection holds. *)
Theorem C2_rebuild_adds {Embedding} (env : Env Embedding)
    url1 branch1 extensions1 url2 branch2 extensions2 repo_id
    (w w1 w2 : World Embedding) r1 r2 :
  load_and_index_repository env url1 branch1 extensions1 repo_id w = (Success r1, w1) ->
  load_and_index_repository env url2 branch2 extensions2 repo_id w1 = (Success r2, w2) ->
  vector_store_path r2 = vector_store_path r1
  /\ exists first second,
       length first = chunk_count r1
       /\ length second = chunk_count r2
       /\ collection (vector_store_path r1) w1
          = collection (vector_store_path r1) w ++ first
       /\ collection (vector_store_path r1) w2
          = collection (vector_store_path r1) w ++ first ++ second
       /\ forall e q k,
            e ∈ first ->
            length (collection (vector_store_path r1) w2) <= k ->
            entry_document e
              ∈ similarity_search_by_vector env (vector_store_path r1) w2 q k.
Proof.
  intros H1 H2.
  apply load_success in H1 as (d1 & docs1 & _ & _ & _ & -> & Hc1).
  apply load_success in H2 as (d2 & docs2 & _ & _ & _ & -> & Hc2).
  cbn [vector_store_path chunk_count]. split; [done|].
  set (path := store_path env repo_id) in *.
  set (first := index_entries env (split_documents (text_splitter extensions1) docs1)) in *.
  set (second := index_entries env (split_documents (text_splitter extensions2) docs2)) in *.
  assert (collection path w1 = collection path w ++ first) as Hw1.
  { unfold collection at 1. by rewrite Hc1, lookup_insert_eq. }
  assert (collection path w2 = collection path w ++ first ++ second) as Hw2.
  { unfold collection at 1. by rewrite Hc2, lookup_insert_eq, Hw1, <- app_assoc. }
  exists first, second. split; [by unfold first, index_entries; rewrite length_map|].
  split; [by unfold second, index_entries; rewrite length_map|].
  split; [done|]. split; [done|].
  intros e q k He Hk. apply search_all; [|done].
  rewrite Hw2. apply elem_of_app. right. apply elem_of_app. by left.
Qed.

Lemma C2_witness :
  Demo.store = Demo.store
  /\ exists first second,
       length first = 1
       /\ length second = 1
       /\ collection Demo.store Demo.first_build.2
          = collection Demo.store Demo.empty_world ++ first
       /\ collection Demo.store Demo.second_build.2
          = collection Demo.store Demo.empty_world ++ first ++ second
       /\ forall e q k,
            e ∈ first ->
            length (collection Demo.store Demo.second_build.2) <= k ->
            entry_document e
              ∈ similarity_search_by_vector Demo.env Demo.store Demo.second_build.2 q k.
Proof.
  apply (C2_rebuild_adds Demo.env Demo.url "main" [".py"] Demo.url "main" [".js"] 5
           Demo.empty_world Demo.first_build.2 Demo.second_build.2
           {| file_count := 2; chunk_count := 1; vector_store_path := Demo.store |}
           {| file_count := 1; chunk_count := 1; vector_store_path := Demo.store |}).
  - vm_compute. reflexivity.
  - vm_compute. reflexivity.
Defined.

(** C2, as the claim states it, fails: repository 5 is built from its
    Python files and then again from its JavaScript files; after the second
    build a query still returns the chunk of [app.py] that the first build
    wrote. *)
Lemma C2_counterexample :
  map entry_document (collection Demo.store Demo.first_build.2)
    = [Demo.chunk_of "app.py" "print('hi')"]
  /\ Demo.second_build.1
     = Success {| file_count := 1; chunk_count := 1; vector_store_path := Demo.store |}
  /\ similarity_search Demo.env Demo.store Demo.second_build.2 "print" 3
     = inr [Demo.chunk_of "web/index.js" "let x = 1;";
            Demo.chunk_of "app.py" "print('hi')"].
Proof. repeat split; vm_compute; reflexivity. Qed.

(** ** The query pipeline *)

Section ChatFacts.
Context {Embedding : Type}.
Variable env : Env Embedding.

Lemma format_history_spec chat_history :
  Forall (fun msg : gmap string string =>
            is_Some (msg !! "role") /\ is_Some (msg !! "content")) chat_history ->
  exists formatted,
    format_history chat_history = inr formatted
    /\ Forall2 turn_message chat_history formatted.
Proof.
  induction 1 as [|msg rest [[role Hr] [text Hc]] _ (formatted & IH & Hall)].
  - exists []. by split.
  - exists ((if String.eqb role "user" then HumanMessage text else AIMessage text)
            :: formatted).
    split.
    + simpl. unfold getitem. rewrite Hr, Hc. simpl. rewrite IH. done.
    + constructor; [|done]. exists role, text. repeat split; try done.
      * intros ->. done.
      * intros Hne. apply String.eqb_neq in Hne. by rewrite Hne.
Qed.

Lemma context_doc_spec doc :
  content (context_doc doc) = Py.take 500 (page_content doc)
  /\ Py.len (content (context_doc doc)) <= 500
  /\ (forall s, metadata doc !! "source" = Some s -> source (context_doc doc) = s)
  /\ (metadata doc !! "source" = None -> source (context_doc doc) = "Unknown").
Proof.
  unfold context_doc. cbn [content source]. repeat split.
  - apply len_take.
  - by intros s ->.
  - by intros ->.
Qed.

End ChatFacts.

(** C10. In the history that [get_response] hands to the model, a turn
    whose role is exactly ["user"] is a human message and a turn with any
    other role is an assistant message, each with the content of its turn;
    the messages are in the order of the turns, one per turn. *)
Theorem C10_history_roles (chat_history : list (gmap string string)) :
  Forall (fun msg : gmap string string =>
            is_Some (msg !! "role") /\ is_Some (msg !! "content")) chat_history ->
  exists formatted,
    format_history chat_history = inr formatted
    /\ Forall2 turn_message chat_history formatted.
Proof. apply format_history_spec. Qed.

Lemma C10_witness :
  exists formatted,
    format_history Demo.history = inr formatted
    /\ Forall2 turn_message Demo.history formatted.
Proof.
  apply (C10_history_roles Demo.history).
  repeat constructor; by eexists.
Defined.

(** C7. The context that [get_response] builds is as the claim says: at
    most 3 entries, the first 3 retrieved documents in order, each with its
    text cut to 500 characters and the source of its metadata. But no call
    reaches it: the chain asks the retriever for its whole input, the
    embedding model raises on it, and every call of [get_response] ends as
    a failure, in every world and for every question. *)
Theorem C7_get_response_never_answers {Embedding} (env : Env Embedding)
    question path chat_history (w : World Embedding) :
  (forall retrieved_docs,
     length (map context_doc (Py.take_list 3 retrieved_docs)) <= 3
     /\ Forall2 (fun c doc =>
                   content c = Py.take 500 (page_content doc)
                   /\ Py.len (content c) <= 500
                   /\ (forall s, metadata doc !! "source" = Some s -> source c = s)
                   /\ (metadata doc !! "source" = None -> source c = "Unknown"))
          (map context_doc (Py.take_list 3 retrieved_docs))
          (Py.take_list 3 retrieved_docs))
  /\ (forall formatted,
        retrieval_chain env path w question formatted = inl (not_a_text_error env))
  /\ exists e, get_response env question path chat_history w = Failure e.
Proof.
  split; [|split].
  - intros docs. split.
    + rewrite length_map. unfold Py.take_list. rewrite length_take. lia.
    + apply Forall2_fmap_l, Forall_Forall2_diag, Forall_forall.
      intros doc _. apply context_doc_spec.
  - done.
  - unfold get_response.
    destruct (llm_init_fault env chat_llm) as [e|]; [by exists e|]. cbn [check bind_exn].
    destruct (get_vector_store env path) as [e|vectorstore]; [by exists e|].
    cbn [bind_exn].
    destruct (format_history chat_history) as [e|formatted]; [by exists e|].
    cbn [bind_exn]. by exists (not_a_text_error env).
Qed.

(** The question of the demonstration, asked about the indexed repository,
    is answered by the failure of the embedding model. *)
Example ex_get_response :
  get_response Demo.env Demo.question Demo.store Demo.history Demo.indexed_world
  = Failure "'dict' object has no attribute 'replace'".
Proof. vm_compute. reflexivity. Qed.

(** ** The issue pipelines *)

Section IssueFacts.
Context {Embedding : Type}.
Variable env : Env Embedding.

(** What a successful [analyze_issue] went through. *)
Lemma analyze_issue_success repo_name issue_number data :
  analyze_issue env repo_name issue_number = Success data ->
  exists repo issue analysis,
    get_repo env repo_name = inr repo
    /\ get_issue repo issue_number = inr issue
    /\ llm_invoke env issue_llm [HumanMessage (analysis_prompt (issue_data issue))]
       = inr analysis
    /\ data = with_analysis (issue_data issue) analysis.
Proof.
  unfold analyze_issue. intros H.
  destruct (get_repo env repo_name) as [e|repo] eqn:Hrepo; [done|].
  cbn [bind_exn] in H.
  destruct (get_issue repo issue_number) as [e|issue] eqn:Hissue; [done|].
  cbn [bind_exn] in H.
  destruct (llm_invoke env issue_llm _) as [e|analysis] eqn:Hllm; [done|].
  cbn [bind_exn] in H. exists repo, issue, analysis.
  split; [done|]. split; [done|]. split; [exact Hllm|]. congruence.
Qed.

Lemma analysis_prompt_body data :
  analysis_prompt data
  = prompt_head (d_title data) +:+ Py.take 1000 (d_body data)
    +:+ prompt_tail (d_labels data) (d_state data).
Proof.
  unfold analysis_prompt, prompt_head, prompt_tail.
  by rewrite !append_assoc.
Qed.

Variables (keywords : string) (max_results : Z).

(** The answer of the loop is the capped list of the kept issues. *)
Lemma search_loop_result listing : forall issues_list,
  (search_loop keywords max_results listing issues_list).1
  = issues_list
    ++ map issue_summary
         (take (Z.to_nat max_results - length issues_list) (filter (kept keywords) listing)).
Proof.
  induction listing as [|issue rest IH]; intros acc.
  - cbn [search_loop fst]. by rewrite filter_nil, take_nil, app_nil_r.
  - cbn [search_loop]. destruct (Z.leb_spec max_results (Z.of_nat (length acc))) as [Hb|Hb].
    + replace (Z.to_nat max_results - length acc) with 0 by lia.
      simpl. by rewrite app_nil_r.
    + destruct (keyword_match keywords issue) eqn:Hk.
      * rewrite filter_cons_True by done. rewrite IH, length_app. simpl length.
        replace (Z.to_nat max_results - length acc)
          with (S (Z.to_nat max_results - (length acc + 1))) by lia.
        rewrite firstn_cons, map_cons, <- app_assoc. done.
      * rewrite filter_cons_False by (unfold kept; by rewrite Hk). apply IH.
Qed.

(** What the loop drew from the listing: an issue is drawn only while the
    cap is not reached, except for the one on which the loop stops. *)
Lemma search_loop_drawn listing : forall issues_list,
  exists drawn,
    listing = drawn ++ (search_loop keywords max_results listing issues_list).2
    /\ forall p x s,
         drawn = p ++ x :: s ->
         (max_results <= Z.of_nat (length issues_list + length (filter (kept keywords) p)))%Z ->
         s = [].
Proof.
  induction listing as [|issue rest IH]; intros acc.
  - exists []. split; [done|]. intros p x s H. by destruct p.
  - cbn [search_loop]. destruct (Z.leb_spec max_results (Z.of_nat (length acc))) as [Hb|Hb].
    + exists [issue]. split; [done|]. intros [|y p] x s H _.
      * by injection H.
      * injection H as _ H. by destruct p.
    + destruct (keyword_match keywords issue) eqn:Hk.
      * destruct (IH (acc ++ [issue_summary issue])) as (drawn & Hl & Hcap).
        exists (issue :: drawn). split; [by rewrite Hl at 1|].
        intros [|y p] x s H Hreached.
        -- simpl in Hreached. lia.
        -- injection H as -> H. apply (Hcap p x s H).
           rewrite filter_cons_True in Hreached by done.
           rewrite length_app. simpl in *. lia.
      * destruct (IH acc) as (drawn & Hl & Hcap).
        exists (issue :: drawn). split; [by rewrite Hl at 1|].
        intros [|y p] x s H Hreached.
        -- simpl in Hreached. lia.
        -- injection H as -> H. apply (Hcap p x s H).
           rewrite filter_cons_False in Hreached by (unfold kept; by rewrite Hk).
           done.
Qed.

(** The loop stops on the first issue it draws after the cap is reached:
    when [seen] is the shortest start of the listing that reaches the cap
    and an issue follows it, that issue is drawn and what follows it is
    left in the listing. *)
Lemma search_loop_stops seen : forall listing issues_list issue after,
  listing = seen ++ issue :: after ->
  (max_results <= Z.of_nat (length issues_list + length (filter (kept keywords) seen)))%Z ->
  (forall p x s,
     seen = p ++ x :: s ->
     (Z.of_nat (length issues_list + length (filter (kept keywords) p)) < max_results)%Z) ->
  (search_loop keywords max_results listing issues_list).2 = after.
Proof.
  induction seen as [|y seen IH]; intros listing acc issue after -> Hcap Hmin.
  - cbn [app search_loop]. rewrite filter_nil in Hcap. simpl in Hcap.
    destruct (Z.leb_spec max_results (Z.of_nat (length acc))); [done|lia].
  - rewrite <- app_comm_cons. cbn [search_loop].
    pose proof (Hmin [] y seen eq_refl) as H0. rewrite filter_nil in H0. simpl in H0.
    destruct (Z.leb_spec max_results (Z.of_nat (length acc))); [lia|].
    destruct (keyword_match keywords y) eqn:Hk.
    + apply (IH _ _ issue after eq_refl).
      * rewrite filter_cons_True in Hcap by done. rewrite length_app. simpl in *. lia.
      * intros p x s ->. specialize (Hmin (y :: p) x s eq_refl).
        rewrite filter_cons_True in Hmin by done. rewrite length_app. simpl in *. lia.
    + apply (IH _ _ issue after eq_refl).
      * by rewrite filter_cons_False in Hcap by (unfold kept; by rewrite Hk).
      * intros p x s ->. specialize (Hmin (y :: p) x s eq_refl).
        by rewrite filter_cons_False in Hmin by (unfold kept; by rewrite Hk).
Qed.

(** When the cap is reached by no start of the listing that an issue
    follows, the loop draws the whole listing. *)
Lemma search_loop_exhausts listing : forall issues_list,
  (forall seen issue after,
     listing = seen ++ issue :: after ->
     (Z.of_nat (length issues_list + length (filter (kept keywords) seen)) < max_results)%Z) ->
  (search_loop keywords max_results listing issues_list).2 = [].
Proof.
  induction listing as [|y rest IH]; intros acc Hnot; [done|].
  cbn [search_loop].
  pose proof (Hnot [] y rest eq_refl) as H0. rewrite filter_nil in H0. simpl in H0.
  destruct (Z.leb_spec max_results (Z.of_nat (length acc))); [lia|].
  destruct (keyword_match keywords y) eqn:Hk.
  - apply IH. intros seen issue after ->.
    specialize (Hnot (y :: seen) issue after eq_refl).
    rewrite filter_cons_True in Hnot by done. rewrite length_app. simpl in *. lia.
  - apply IH. intros seen issue after ->.
    specialize (Hnot (y :: seen) issue after eq_refl).
    by rewrite filter_cons_False in Hnot by (unfold kept; by rewrite Hk).
Qed.

End IssueFacts.

(** C3, as the code has it. When the language-model call of
    [analyze_issue] fails, the whole operation fails: the answer is the
    failure with the error text of the call, and the fetched issue metadata
    is not returned. *)
Theorem C3_model_failure_is_total {Embedding} (env : Env Embedding)
    repo_name issue_number repo issue e :
  get_repo env repo_name = inr repo ->
  get_issue repo issue_number = inr issue ->
  llm_invoke env issue_llm [HumanMessage (analysis_prompt (issue_data issue))] = inl e ->
  analyze_issue env repo_name issue_number = Failure e.
Proof.
  intros Hrepo Hissue Hllm. unfold analyze_issue.
  rewrite Hrepo. cbn [bind_exn]. rewrite Hissue. cbn [bind_exn].
  by rewrite Hllm.
Qed.

Lemma C3_witness :
  analyze_issue Demo.env_llm_down "ana/app" 7 = Failure "429 quota exceeded".
Proof.
  apply (C3_model_failure_is_total Demo.env_llm_down "ana/app" 7 Demo.repo Demo.issue7);
    reflexivity.
Defined.

(** C3, as the claim states it, fails: issue 7 exists and is fetched, the
    model call fails, and the answer is a failure, not the metadata of the
    issue. *)
Lemma C3_counterexample :
  get_repo Demo.env_llm_down "ana/app" = inr Demo.repo
  /\ get_issue Demo.repo 7 = inr Demo.issue7
  /\ analyze_issue Demo.env_llm_down "ana/app" 7 = Failure "429 quota exceeded"
  /\ analyze_issue Demo.env_llm_down "ana/app" 7 <> Success (issue_data Demo.issue7).
Proof. repeat split. discriminate. Qed.

(** C6, as the code has it. The data of an analysed issue holds at most 5
    comments, and they are the first 5 of the listing of the tracker, in
    its order; the prompt holds the body cut to its first 1000 characters,
    between texts that do not depend on the body. *)
Theorem C6_first_comments_and_body {Embedding} (env : Env Embedding)
    repo_name issue_number data :
  analyze_issue env repo_name issue_number = Success data ->
  exists repo issue analysis,
    get_repo env repo_name = inr repo
    /\ get_issue repo issue_number = inr issue
    /\ d_comments data = map comment_data (take 5 (get_comments issue))
    /\ length (d_comments data) <= 5
    /\ llm_invoke env issue_llm
         [HumanMessage
            (prompt_head (title issue)
             +:+ Py.take 1000 (d_body data)
             +:+ prompt_tail (labels issue) (state issue))] = inr analysis
    /\ Py.len (Py.take 1000 (d_body data)) <= 1000
    /\ d_ai_analysis data = Some analysis.
Proof.
  intros H. apply analyze_issue_success in H as (repo & issue & analysis & Hr & Hi & Hl & ->).
  exists repo, issue, analysis. rewrite analysis_prompt_body in Hl.
  repeat split; try done.
  - cbn [d_comments with_analysis issue_data]. rewrite length_map.
    unfold Py.take_list. rewrite length_take. lia.
  - apply len_take.
Qed.

Lemma C6_witness :
  exists repo issue analysis,
    get_repo Demo.env "ana/app" = inr repo
    /\ get_issue repo 7 = inr issue
    /\ d_comments (with_analysis (issue_data Demo.issue7) "It crashes because of X.")
       = map comment_data (take 5 (get_comments issue))
    /\ length (d_comments (with_analysis (issue_data Demo.issue7) "It crashes because of X."))
       <= 5
    /\ llm_invoke Demo.env issue_llm
         [HumanMessage
            (prompt_head (title issue)
             +:+ Py.take 1000
                   (d_body (with_analysis (issue_data Demo.issue7) "It crashes because of X."))
             +:+ prompt_tail (labels issue) (state issue))] = inr analysis
    /\ Py.len (Py.take 1000
                 (d_body (with_analysis (issue_data Demo.issue7) "It crashes because of X.")))
       <= 1000
    /\ d_ai_analysis (with_analysis (issue_data Demo.issue7) "It crashes because of X.")
       = Some analysis.
Proof.
  apply (C6_first_comments_and_body Demo.env "ana/app" 7). reflexivity.
Defined.

(** C6, as the claim states it, fails: issue 7 has six comments, listed
    oldest first; the data holds the five oldest, and the most recent one,
    which is more recent than each of them, is left out. *)
Lemma C6_counterexample :
  exists data,
    analyze_issue Demo.env "ana/app" 7 = Success data
    /\ d_comments data = map comment_data (map Demo.comment_at [1; 2; 3; 4; 5]%Z)
    /\ (Demo.comment_at 6%Z ∈ get_comments Demo.issue7)
    /\ (comment_data (Demo.comment_at 6%Z) ∉ d_comments data)
    /\ Forall (fun c => (comment_created_at c < comment_created_at (Demo.comment_at 6))%Z)
         (map Demo.comment_at [1; 2; 3; 4; 5]%Z).
Proof.
  eexists. split; [reflexivity|]. split; [reflexivity|]. split.
  - unfold Demo.issue7, Demo.issue_of, Demo.six_comments. cbn [get_comments map].
    do 5 apply list_elem_of_further. apply list_elem_of_here.
  - split.
    + intros H. vm_compute in H.
      repeat (apply elem_of_cons in H as [H|H]; [discriminate H|]).
      by apply elem_of_nil in H.
    + repeat constructor.
Qed.

(** C5, as the code has it. [search_issues] returns at most [max_results]
    issues (none when [max_results] is not positive): the first
    [max_results] issues of the listing that pass the keyword test. It
    draws issues from the listing one at a time and stops at the first one
    it draws after the cap is reached: when an issue follows the shortest
    start of the listing that reaches the cap, that one issue is drawn too,
    and what follows it is left in the listing; when the cap is reached by
    no start of the listing that an issue follows, the whole listing is
    drawn. *)
Theorem C5_search_cap {Embedding} (env : Env Embedding)
    repo_name keywords label_text state_filter max_results issues_list remaining :
  search_issues env repo_name keywords label_text state_filter max_results
    = (Success issues_list, remaining) ->
  length issues_list <= Z.to_nat max_results
  /\ exists repo listing drawn,
       get_repo env repo_name = inr repo
       /\ get_issues repo state_filter (label_list label_text) = inr listing
       /\ listing = drawn ++ remaining
       /\ issues_list
          = map issue_summary
              (take (Z.to_nat max_results) (filter (kept keywords) listing))
       /\ (forall seen issue after,
             drawn = seen ++ issue :: after ->
             cap_reached keywords max_results seen ->
             after = [])
       /\ (forall seen issue after,
             listing = seen ++ issue :: after ->
             cap_reached keywords max_results seen ->
             (forall p x s, seen = p ++ x :: s -> ~ cap_reached keywords max_results p) ->
             drawn = seen ++ [issue] /\ remaining = after)
       /\ ((forall seen issue after,
              listing = seen ++ issue :: after ->
              ~ cap_reached keywords max_results seen) ->
           drawn = listing /\ remaining = []).
Proof.
  unfold search_issues. intros H.
  destruct (get_repo env repo_name) as [e|repo] eqn:Hrepo; [done|].
  cbn [bind_exn] in H.
  destruct (get_issues repo state_filter (label_list label_text)) as [e|listing] eqn:Hl;
    [done|].
  cbn [bind_exn] in H.
  pose proof (search_loop_result keywords max_results listing []) as Hres.
  destruct (search_loop_drawn keywords max_results listing []) as (drawn & Hd & Hcap).
  pose proof (search_loop_stops keywords max_results) as Hstop.
  pose proof (search_loop_exhausts keywords max_results listing []) as Hall.
  destruct (search_loop keywords max_results listing []) as [res rest] eqn:Hloop.
  cbn [fst snd] in Hres, Hd, Hall. rewrite app_nil_l, Nat.sub_0_r in Hres.
  assert (issues_list = res /\ remaining = rest) as [-> ->] by (split; congruence).
  split.
  - rewrite Hres, length_map, length_take. lia.
  - exists repo, listing, drawn. do 4 (split; [done|]). split; [|split].
    + intros seen issue after Hs Hc. by apply (Hcap seen issue after Hs).
    + intros seen issue after Hs Hc Hmin.
      assert (rest = after) as ->.
      { specialize (Hstop seen listing [] issue after Hs). rewrite Hloop in Hstop.
        apply Hstop; [exact Hc|].
        intros p x s Hp. specialize (Hmin p x s Hp). unfold cap_reached in Hmin.
        simpl. lia. }
      split; [|done]. rewrite Hs in Hd.
      replace (seen ++ issue :: after) with ((seen ++ [issue]) ++ after) in Hd
        by (by rewrite <- app_assoc).
      by apply app_inv_tail in Hd.
    + intros Hnot. assert (rest = []) as ->.
      { apply Hall. intros seen issue after Hs. specialize (Hnot seen issue after Hs).
        unfold cap_reached in Hnot. simpl. lia. }
      split; [|done]. by rewrite app_nil_r in Hd.
Qed.

Lemma C5_witness :
  length [issue_summary Demo.issue7] <= Z.to_nat 1
  /\ exists repo listing drawn,
       get_repo Demo.env "ana/app" = inr repo
       /\ get_issues repo "open" (label_list "") = inr listing
       /\ listing = drawn ++ [Demo.issue9]
       /\ [issue_summary Demo.issue7]
          = map issue_summary (take (Z.to_nat 1) (filter (kept "") listing))
       /\ (forall seen issue after,
             drawn = seen ++ issue :: after ->
             cap_reached "" 1 seen ->
             after = [])
       /\ (forall seen issue after,
             listing = seen ++ issue :: after ->
             cap_reached "" 1 seen ->
             (forall p x s, seen = p ++ x :: s -> ~ cap_reached "" 1 p) ->
             drawn = seen ++ [issue] /\ [Demo.issue9] = after)
       /\ ((forall seen issue after,
              listing = seen ++ issue :: after ->
              ~ cap_reached "" 1 seen) ->
           drawn = listing /\ [Demo.issue9] = []).
Proof.
  apply (C5_search_cap Demo.env "ana/app" "" "" "open" 1). reflexivity.
Defined.

(** C5, as the claim states it, fails: with a cap of 1 the cap is reached
    by issue 7, the first of the listing, and issue 8 is still drawn from
    the listing before the loop stops; only issue 9 is left in it. *)
Lemma C5_counterexample :
  get_issues Demo.repo "open" (label_list "") = inr ([Demo.issue7] ++ [Demo.issue8; Demo.issue9])
  /\ cap_reached "" 1 [Demo.issue7]
  /\ search_issues Demo.env "ana/app" "" "" "open" 1
     = (Success [issue_summary Demo.issue7], [Demo.issue9])
  /\ [Demo.issue9] <> [Demo.issue8; Demo.issue9].
Proof.
  split; [reflexivity|]. split; [|split; [reflexivity|discriminate]].
  unfold cap_reached. vm_compute. discriminate.
Qed.

(** ** More facts about the string built-ins *)

Section StringSpecs.

Lemma rev_append a b : String.rev (a +:+ b) = String.rev b +:+ String.rev a.
Proof.
  induction a as [|c a IH].
  - by rewrite append_nil_l, append_nil_r.
  - by rewrite append_cons, !rev_cons, IH, append_assoc.
Qed.

Lemma rev_involutive s : String.rev (String.rev s) = s.
Proof.
  induction s as [|c s IH]; [done|].
  by rewrite rev_cons, rev_append, IH.
Qed.

Lemma rev_inj a b : String.rev a = String.rev b -> a = b.
Proof. intros H. by rewrite <- (rev_involutive a), H, rev_involutive. Qed.

Lemma prefix_append p rest : String.prefix p (p +:+ rest) = true.
Proof.
  induction p as [|c p IH]; [by destruct rest|].
  rewrite append_cons. simpl. by destruct (ascii_dec c c).
Qed.

(** [s.startswith(p)] holds exactly when [s] is [p] followed by something. *)
Lemma prefix_spec p s : String.prefix p s = true <-> exists rest, s = p +:+ rest.
Proof.
  split.
  - intros H. eexists. by apply prefix_drop.
  - intros [rest ->]. apply prefix_append.
Qed.

(** [s.endswith(suffix)] holds exactly when [s] is something followed by
    [suffix]. *)
Lemma endswith_spec s suffix :
  Py.endswith s suffix = true <-> exists before, s = before +:+ suffix.
Proof.
  unfold Py.endswith. rewrite prefix_spec. split.
  - intros [r Hr]. exists (String.rev r). apply rev_inj.
    by rewrite rev_append, rev_involutive.
  - intros [before ->]. exists (String.rev before). apply rev_append.
Qed.

(** [sub in s] holds exactly when [sub] occurs in [s]. *)
Lemma contains_spec sub s :
  Py.contains sub s = true <-> exists before after, s = before +:+ sub +:+ after.
Proof.
  split.
  - induction s as [|c s IH]; cbn [Py.contains]; intros H.
    + rewrite orb_false_r in H. apply prefix_spec in H as [rest ->].
      by exists "", rest.
    + apply orb_true_iff in H as [H|H].
      * apply prefix_spec in H as [rest ->]. by exists "", rest.
      * destruct (IH H) as (before & after & ->). by exists (String c before), after.
  - intros (before & after & ->). induction before as [|c before IH].
    + rewrite append_nil_l. destruct (sub +:+ after) eqn:E; cbn [Py.contains].
      * rewrite orb_false_r. rewrite <- E. apply prefix_append.
      * apply orb_true_iff. left. rewrite <- E. apply prefix_append.
    + rewrite append_cons. cbn [Py.contains]. apply orb_true_iff. by right.
Qed.

Lemma lower_char_idem c : Py.lower_char (Py.lower_char c) = Py.lower_char c.
Proof. by destruct c as [[] [] [] [] [] [] [] []]. Qed.

Lemma lower_idem s : Py.lower (Py.lower s) = Py.lower s.
Proof.
  induction s as [|c s IH]; [done|]. simpl. by rewrite lower_char_idem, IH.
Qed.

Lemma lower_nil s : Py.lower s = "" <-> s = "".
Proof. by destruct s. Qed.

Lemma truthy_lower s : Py.truthy (Py.lower s) = Py.truthy s.
Proof. by destruct s. Qed.

End StringSpecs.

Section StripFacts.

Lemma lstrip_no_blank_start s : no_blank_start (Py.lstrip s).
Proof.
  induction s as [|c s IH]; [done|]. simpl.
  by destruct (Py.isspace c) eqn:E.
Qed.

Lemma lstrip_id s : no_blank_start s -> Py.lstrip s = s.
Proof. destruct s as [|c s]; [done|]. simpl. by intros ->. Qed.

(** [lstrip] only drops characters from the front. *)
Lemma lstrip_suffix s : exists blanks, s = blanks +:+ Py.lstrip s.
Proof.
  induction s as [|c s [blanks IH]]; [by exists ""|]. simpl.
  destruct (Py.isspace c).
  - exists (String c blanks). by rewrite append_cons, <- IH.
  - by exists "".
Qed.

(** [rstrip] only drops characters from the end. *)
Lemma rstrip_prefix s : exists blanks, s = Py.rstrip s +:+ blanks.
Proof.
  unfold Py.rstrip. destruct (lstrip_suffix (String.rev s)) as [blanks H].
  exists (String.rev blanks). apply rev_inj.
  by rewrite rev_append, !rev_involutive.
Qed.

Lemma rstrip_no_blank_start s : no_blank_start s -> no_blank_start (Py.rstrip s).
Proof.
  intros Hs. destruct (rstrip_prefix s) as [blanks H].
  destruct (Py.rstrip s) as [|c r]; [done|].
  rewrite H in Hs. by rewrite append_cons in Hs.
Qed.

(** What [strip] returns neither begins nor ends with a blank. *)
Lemma strip_stripped s : stripped (Py.strip s).
Proof.
  unfold stripped, Py.strip. split.
  - apply rstrip_no_blank_start, lstrip_no_blank_start.
  - unfold Py.rstrip. rewrite rev_involutive. apply lstrip_no_blank_start.
Qed.

Lemma strip_id s : stripped s -> Py.strip s = s.
Proof.
  intros [Hs He]. unfold Py.strip, Py.rstrip.
  by rewrite (lstrip_id s), (lstrip_id (String.rev s)), rev_involutive.
Qed.

Lemma isspace_lower_char c : Py.isspace (Py.lower_char c) = Py.isspace c.
Proof. by destruct c as [[] [] [] [] [] [] [] []]. Qed.

Lemma all_blank_lower s : all_blank (Py.lower s) = all_blank s.
Proof.
  induction s as [|c s IH]; [done|]. simpl. by rewrite isspace_lower_char, IH.
Qed.

(** A text of blanks has no word. *)
Lemma split_all_blank s : all_blank s = true -> Py.split s = [].
Proof.
  unfold Py.split. induction s as [|c s IH]; [done|]. simpl.
  intros [Hc Hs]%andb_true_iff. rewrite Hc. simpl. by apply IH.
Qed.

End StripFacts.

(** ** The shape of the chunks *)

Section ChunkShape.
Import TextSplitter.
Variable sp : RecursiveCharacterTextSplitter.
Variable P : string -> Prop.

(** [P] holds of every text that [_join_docs] returns. *)
Hypothesis join_P : forall docs separator t, _join_docs sp docs separator = Some t -> P t.

Lemma merge_step_all separator st d :
  Forall P st.1.1 -> Forall P (merge_step sp separator st d).1.1.
Proof.
  destruct st as [[docs cur] total]. simpl. intros Hdocs. unfold merge_step.
  destruct (chunk_size sp <? _); [|done].
  destruct (0 <? length cur); [|done].
  destruct (pop_loop sp _ _ cur total) as [cur' total']. simpl.
  apply Forall_app. split; [done|].
  destruct (_join_docs sp cur separator) as [t|] eqn:Ej; simpl; [|done].
  apply Forall_singleton. by eapply join_P.
Qed.

Lemma merge_splits_all splits separator : Forall P (_merge_splits sp splits separator).
Proof.
  unfold _merge_splits.
  assert (forall st, Forall P st.1.1 ->
            Forall P (foldl (merge_step sp separator) st splits).1.1) as Hfold.
  { induction splits as [|d splits IH]; intros st Hst; [done|].
    cbn [foldl]. by apply IH, merge_step_all. }
  specialize (Hfold ([], [], 0)).
  destruct (foldl (merge_step sp separator) ([], [], 0) splits) as [[docs cur] total].
  simpl in Hfold. apply Forall_app. split; [by apply Hfold|].
  destruct (_join_docs sp cur separator) as [t|] eqn:Ej; simpl; [|done].
  apply Forall_singleton. by eapply join_P.
Qed.

Lemma split_loop_all separator recurse splits :
  Forall (fun s => match recurse with
                   | None => Py.len s < chunk_size sp \/ P s
                   | Some other_info => Forall P (other_info s)
                   end) splits ->
  Forall P (split_loop sp separator recurse splits).
Proof.
  intros Hs. unfold split_loop.
  assert (forall st, Forall P st.1 ->
            Forall P (foldl (split_step sp separator recurse) st splits).1) as Hfold.
  { induction splits as [|s splits IH]; intros st Hst; [done|].
    apply Forall_cons in Hs as [Hd Hs]. cbn [foldl]. apply IH; [done|].
    destruct st as [final good]. simpl in Hst. unfold split_step.
    destruct (Py.len s <? chunk_size sp) eqn:E; [done|].
    apply Nat.ltb_ge in E.
    assert (Forall P (if Py.nonempty good
                      then final ++ _merge_splits sp good separator else final)) as Hf.
    { destruct (Py.nonempty good); [|done].
      apply Forall_app. split; [done|]. apply merge_splits_all. }
    destruct recurse as [other_info|]; simpl.
    - apply Forall_app. by split.
    - apply Forall_app. split; [done|]. apply Forall_singleton.
      destruct Hd as [Hd|Hd]; [lia|done]. }
  specialize (Hfold ([], [])). destruct (foldl _ _ splits) as [final good].
  simpl in Hfold. destruct (Py.nonempty good); [|by apply Hfold].
  apply Forall_app. split; [by apply Hfold|]. apply merge_splits_all.
Qed.

Hypothesis size_two : 2 <= chunk_size sp.

Lemma split_text_all seps : forall text,
  last seps = Some "" -> Forall P (_split_text sp seps text).
Proof.
  induction seps as [|_s rest IH]; intros text Hlast; [done|].
  cbn [_split_text]. destruct (String.eqb_spec _s "") as [->|Hs].
  - unfold split_with. apply split_loop_all.
    eapply Forall_impl; [apply split_regex_chars|].
    intros x Hx. simpl in Hx. left. lia.
  - destruct rest as [|s' rest'].
    { simpl in Hlast. congruence. }
    assert (last (s' :: rest') = Some "") as Hlast' by done.
    destruct (re_search _s text); [|by apply IH].
    unfold split_with. apply split_loop_all.
    apply Forall_forall. intros x _. by apply IH.
Qed.

End ChunkShape.

Section ChunkFacts.
Import TextSplitter.

Lemma join_docs_shape sp docs separator t :
  strip_whitespace sp = true ->
  _join_docs sp docs separator = Some t -> t <> "" /\ stripped t.
Proof.
  unfold _join_docs. intros ->.
  destruct (String.eqb_spec (Py.strip (Py.join separator docs)) "") as [|Hne]; [done|].
  intros [= <-]. split; [done|]. apply strip_stripped.
Qed.

(** The chunks of the splitter of a language are not empty and neither
    begin nor end with a blank. *)
Lemma split_text_shape language size overlap text :
  2 <= size ->
  Forall (fun c => c <> "" /\ stripped c)
    (split_text (from_language language size overlap) text).
Proof.
  intros Hsize. unfold split_text.
  apply (split_text_all (from_language language size overlap)
           (fun c => c <> "" /\ stripped c)).
  - intros docs separator t. by apply join_docs_shape.
  - done.
  - apply separators_end_empty.
Qed.

End ChunkFacts.

(** ** Further properties of the build pipeline *)

Section MoreBuildFacts.
Context {Embedding : Type}.
Variable env : Env Embedding.

Lemma store_path_eq :
  exists front, forall n, store_path env n = front +:+ "repo_" +:+ Py.str_int n.
Proof.
  unfold store_path, Py.os_path_join.
  destruct (String.eqb (VECTOR_STORE_PATH env) "" || Py.endswith (VECTOR_STORE_PATH env) "/").
  - by exists (VECTOR_STORE_PATH env).
  - exists (VECTOR_STORE_PATH env +:+ "/"). intros n. by rewrite append_assoc.
Qed.

Lemma store_path_inj id1 id2 : store_path env id1 = store_path env id2 -> id1 = id2.
Proof.
  destruct store_path_eq as [front Hfront]. rewrite !Hfront. intros H.
  apply String.app_inj in H. apply (String.app_inj "repo_") in H.
  by apply pretty_Z_inj in H.
Qed.

(** What the [finally] clause does to the collections: nothing. *)
Lemma finally_collections d (w : World Embedding) :
  collections (if Py.truthy d && path_exists d w then rmtree d w else w) = collections w.
Proof. by destruct (_ && _). Qed.

(** The collections after a build: those before it, with the entries of
    the build added under the path of the repository when it succeeds. *)
Lemma load_collections repo_url branch file_extensions repo_id (w : World Embedding) :
  let out := load_and_index_repository env repo_url branch file_extensions repo_id w in
  (exists e, out.1 = Failure e /\ collections out.2 = collections w)
  \/ (exists r entries,
        out.1 = Success r
        /\ collections out.2
           = <[store_path env repo_id := collection (store_path env repo_id) w ++ entries]>
               (collections w)).
Proof.
  cbv zeta.
  destruct (load_and_index_repository env repo_url branch file_extensions repo_id w)
    as [[r|e] w'] eqn:H.
  - right. apply load_success in H as (d & docs & _ & _ & _ & _ & Hc).
    eexists r, _. split; [done|]. exact Hc.
  - left. exists e. split; [done|]. simpl.
    unfold load_and_index_repository in H.
    destruct (mkdtemp env (dirs w)) as [e0|d]; [by injection H as _ <-|].
    unfold index_in, bind, lift, ret, makedirs, from_documents, modify, check in H.
    destruct (GitLoader_load env repo_url d branch (file_filter file_extensions))
      as [e0|documents].
    { injection H as _ <-. by rewrite finally_collections. }
    destruct documents as [|doc rest].
    { injection H as _ <-. by rewrite finally_collections. }
    cbn [Py.nonempty negb] in H. cbv iota in H.
    destruct (load_embedder_fault env).
    { injection H as _ <-. by rewrite finally_collections. }
    destruct (makedirs_fault env (store_path env repo_id)).
    { injection H as _ <-. by rewrite finally_collections. }
    destruct (embed_fault env _).
    { injection H as _ <-. by rewrite finally_collections. }
    destruct (persist_fault env (store_path env repo_id)).
    { injection H as _ <-. by rewrite finally_collections. }
    destruct (Py.nonempty (split_documents (text_splitter file_extensions) (doc :: rest))).
    2:{ injection H as _ <-. by rewrite finally_collections. }
    cbn beta iota in H. injection H as H _. discriminate H.
Qed.

End MoreBuildFacts.

Section SplitDocumentsFacts.
Import TextSplitter.

Lemma split_documents_elem sp documents c :
  c ∈ split_documents sp documents ->
  exists doc, doc ∈ documents
    /\ page_content c ∈ split_text sp (page_content doc)
    /\ metadata c = metadata doc.
Proof.
  unfold split_documents. rewrite list_elem_of_In, in_flat_map.
  intros (doc & Hdoc & Hc). exists doc. rewrite list_elem_of_In. split; [done|].
  rewrite <- list_elem_of_In in Hc. apply list_elem_of_fmap in Hc as (chunk & -> & Hchunk).
  by split.
Qed.

Lemma split_documents_short language size overlap documents :
  Forall (fun doc => Py.len (page_content doc) < size
                     /\ Py.strip (page_content doc) <> "") documents ->
  length (split_documents (from_language language size overlap) documents)
  = length documents.
Proof.
  unfold split_documents. induction 1 as [|doc rest [Hlt Hne] _ IH]; [done|].
  cbn [flat_map]. rewrite length_app, IH, length_map, split_text_short by done.
  apply String.eqb_neq in Hne. by rewrite Hne.
Qed.

End SplitDocumentsFacts.

(** X1. A path passes [file_filter] exactly when it ends with one of the
    extensions of the list: with no extension none passes, and the empty
    extension lets every path pass. *)
Theorem X1_file_filter_spec (file_extensions : list string) (file_path : string) :
  file_filter file_extensions file_path = true
  <-> exists ext before, ext ∈ file_extensions /\ file_path = before +:+ ext.
Proof.
  unfold file_filter. rewrite existsb_exists. split.
  - intros (ext & Hin & Hend). apply endswith_spec in Hend as [before ->].
    exists ext, before. by rewrite list_elem_of_In.
  - intros (ext & before & Hin & ->). exists ext. rewrite <- list_elem_of_In.
    split; [done|]. apply endswith_spec. by exists before.
Qed.

(** X2. With an empty list of extensions the build of a repository that
    clones fails with "No files found matching the selected extensions",
    whatever the repository holds. *)
Theorem X2_no_extension_fails {Embedding} (env : Env Embedding)
    repo_url branch repo_id (w : World Embedding) d blobs :
  mkdtemp env (dirs w) = inr d ->
  git_blobs env repo_url branch = inr blobs ->
  (load_and_index_repository env repo_url branch [] repo_id w).1
  = Failure "No files found matching the selected extensions".
Proof.
  intros Hd Hb. unfold load_and_index_repository. rewrite Hd.
  unfold index_in, bind, lift.
  rewrite (load_none_match env _ _ _ [] blobs Hb); [done|].
  by apply Forall_forall.
Qed.

Lemma X2_witness :
  (load_and_index_repository Demo.env Demo.url "main" [] 5 Demo.empty_world).1
  = Failure "No files found matching the selected extensions".
Proof.
  apply (X2_no_extension_fails Demo.env Demo.url "main" 5 Demo.empty_world
           "/tmp/tmpclone" Demo.blobs); reflexivity.
Defined.

(** X3. The vector store path of a repository is a function of its id
    alone, and determines it: two repositories share a path exactly when
    they have the same id. *)
Theorem X3_store_path_injective {Embedding} (env : Env Embedding) id1 id2 :
  store_path env id1 = store_path env id2 <-> id1 = id2.
Proof. split; [apply store_path_inj|by intros ->]. Qed.





Section LoaderFacts.
Context {Embedding : Type}.
Variable env : Env Embedding.

(** The documents of a load: one per blob that passes the filter, with the
    text of the blob and its path as the source. *)
Lemma load_docs clone_url repo_path branch filter_fn documents :
  GitLoader_load env clone_url repo_path branch filter_fn = inr documents ->
  exists blobs,
    git_blobs env clone_url branch = inr blobs
    /\ length documents
       = length (filter (fun b : string * string =>
                           filter_fn (Py.os_path_join repo_path b.1) = true) blobs)
    /\ Forall2 (fun doc (b : string * string) =>
                  page_content doc = b.2
                  /\ metadata doc !! "source" = Some b.1)
         documents
         (filter (fun b : string * string =>
                    filter_fn (Py.os_path_join repo_path b.1) = true) blobs).
Proof.
  unfold GitLoader_load. destruct (git_blobs env clone_url branch) as [e|blobs]; [done|].
  cbn [bind_exn]. intros [= <-]. exists blobs. split; [done|].
  split; [by rewrite length_map|].
  apply Forall2_fmap_l, Forall_Forall2_diag, Forall_forall. intros b _. done.
Qed.

End LoaderFacts.

(** X7. A build that succeeds reports at least one file, the number of
    blobs of the clone that pass the filter; its path is the vector store
    path of the repository, and the collection under that path has grown
    by the reported number of chunks. *)
Theorem X7_success_report {Embedding} (env : Env Embedding)
    repo_url branch file_extensions repo_id (w w' : World Embedding) r :
  load_and_index_repository env repo_url branch file_extensions repo_id w
    = (Success r, w') ->
  1 <= file_count r
  /\ vector_store_path r = store_path env repo_id
  /\ length (collection (store_path env repo_id) w')
     = length (collection (store_path env repo_id) w) + chunk_count r
  /\ exists d blobs,
       mkdtemp env (dirs w) = inr d
       /\ git_blobs env repo_url branch = inr blobs
       /\ file_count r
          = length (filter (fun b : string * string =>
                              file_filter file_extensions (Py.os_path_join d b.1) = true)
                      blobs).
Proof.
  intros H. apply load_success in H as (d & docs & Hd & Hload & Hne & -> & Hc).
  cbn [file_count chunk_count vector_store_path].
  apply load_docs in Hload as (blobs & Hb & Hlen & _).
  split; [destruct docs; [done|simpl; lia]|]. split; [done|]. split.
  - unfold collection at 1. rewrite Hc, lookup_insert_eq. simpl.
    unfold index_entries. by rewrite length_app, length_map.
  - by exists d, blobs.
Qed.

Lemma X7_witness :
  1 <= file_count {| file_count := 2; chunk_count := 1; vector_store_path := Demo.store |}
  /\ vector_store_path {| file_count := 2; chunk_count := 1; vector_store_path := Demo.store |}
     = store_path Demo.env 5
  /\ length (collection (store_path Demo.env 5) Demo.first_build.2)
     = length (collection (store_path Demo.env 5) Demo.empty_world)
       + chunk_count {| file_count := 2; chunk_count := 1; vector_store_path := Demo.store |}
  /\ exists d blobs,
       mkdtemp Demo.env (dirs Demo.empty_world) = inr d
       /\ git_blobs Demo.env Demo.url "main" = inr blobs
       /\ file_count {| file_count := 2; chunk_count := 1; vector_store_path := Demo.store |}
          = length (filter (fun b : string * string =>
                              file_filter [".py"] (Py.os_path_join d b.1) = true)
                      blobs).
Proof.
  apply (X7_success_report Demo.env Demo.url "main" [".py"] 5 Demo.empty_world
           Demo.first_build.2).
  vm_compute. reflexivity.
Defined.

(** X8. When every file of the clone is shorter than 1000 characters and
    holds something else than blanks, a build that succeeds reports as many
    chunks as files: one chunk per file. *)
Theorem X8_one_chunk_per_short_file {Embedding} (env : Env Embedding)
    repo_url branch file_extensions repo_id (w w' : World Embedding) r blobs :
  load_and_index_repository env repo_url branch file_extensions repo_id w
    = (Success r, w') ->
  git_blobs env repo_url branch = inr blobs ->
  Forall (fun b : string * string => Py.len b.2 < 1000 /\ Py.strip b.2 <> "") blobs ->
  chunk_count r = file_count r.
Proof.
  intros H Hb Hshort.
  apply load_success in H as (d & docs & _ & Hload & _ & -> & _).
  cbn [file_count chunk_count]. unfold text_splitter.
  apply split_documents_short.
  apply load_docs in Hload as (blobs' & Hb' & _ & Hdocs).
  assert (blobs' = blobs) as -> by congruence.
  apply Forall_forall. intros doc Hdoc.
  apply list_elem_of_lookup in Hdoc as [i Hi].
  destruct (Forall2_lookup_l _ _ _ _ _ Hdocs Hi) as (b & Hbi & Hpc & _).
  apply list_elem_of_lookup_2, list_elem_of_filter in Hbi as [_ Hin].
  rewrite Forall_forall in Hshort. rewrite Hpc. by apply Hshort.
Qed.

Lemma X8_witness :
  chunk_count {| file_count := 3; chunk_count := 3;
                 vector_store_path := store_path Worlds.env_three_files 3 |}
  = file_count {| file_count := 3; chunk_count := 3;
                  vector_store_path := store_path Worlds.env_three_files 3 |}.
Proof.
  apply (X8_one_chunk_per_short_file Worlds.env_three_files Demo.url "main" [".py"] 3
           Demo.empty_world Worlds.three_files_build.2 _ Worlds.three_files).
  - vm_compute. reflexivity.
  - reflexivity.
  - repeat constructor; vm_compute; (lia || discriminate).
Defined.

(** X9. Every entry that a successful build adds to the collection comes
    from a file of the clone that passes the filter: its source is the path
    of that file, its text is not empty, has no blank at either end and has
    at most 1000 characters, and its vector is the embedding of its text. *)
Theorem X9_entries_provenance {Embedding} (env : Env Embedding)
    repo_url branch file_extensions repo_id (w w' : World Embedding) r :
  load_and_index_repository env repo_url branch file_extensions repo_id w
    = (Success r, w') ->
  exists d blobs added,
    mkdtemp env (dirs w) = inr d
    /\ git_blobs env repo_url branch = inr blobs
    /\ collection (store_path env repo_id) w'
       = collection (store_path env repo_id) w ++ added
    /\ Forall (fun e =>
                 entry_embedding e = embed env (page_content (entry_document e))
                 /\ page_content (entry_document e) <> ""
                 /\ stripped (page_content (entry_document e))
                 /\ Py.len (page_content (entry_document e)) <= 1000
                 /\ exists b : string * string,
                      b ∈ blobs
                      /\ file_filter file_extensions (Py.os_path_join d b.1) = true
                      /\ metadata (entry_document e) !! "source" = Some b.1)
         added.
Proof.
  intros H. apply load_success in H as (d & docs & Hd & Hload & _ & _ & Hc).
  apply load_docs in Hload as (blobs & Hb & _ & Hdocs).
  exists d, blobs, (index_entries env (split_documents (text_splitter file_extensions) docs)).
  split; [done|]. split; [done|]. split.
  { unfold collection at 1. by rewrite Hc, lookup_insert_eq. }
  apply Forall_forall. intros e He. unfold index_entries in He.
  apply list_elem_of_fmap in He as (c & -> & Hin). cbn [entry_embedding entry_document].
  apply split_documents_elem in Hin as (doc & Hdoc & Hchunk & Hmeta).
  unfold text_splitter in Hchunk.
  pose proof (split_text_shape (select_language file_extensions) 1000 200
                (page_content doc) ltac:(lia)) as Hshape.
  pose proof (split_text_chunks_bound (select_language file_extensions) 1000 200
                (page_content doc) ltac:(lia)) as Hbound.
  rewrite Forall_forall in Hshape, Hbound.
  destruct (Hshape _ Hchunk) as [Hne Hstr]. specialize (Hbound _ Hchunk).
  split; [done|]. split; [done|]. split; [done|]. split; [done|].
  apply list_elem_of_lookup in Hdoc as [i Hi].
  destruct (Forall2_lookup_l _ _ _ _ _ Hdocs Hi) as (b & Hbi & _ & Hsrc).
  apply list_elem_of_lookup_2, list_elem_of_filter in Hbi as [Hpass Hbin].
  exists b. by rewrite Hmeta.
Qed.

Lemma X9_witness :
  exists d blobs added,
    mkdtemp Demo.env (dirs Demo.empty_world) = inr d
    /\ git_blobs Demo.env Demo.url "main" = inr blobs
    /\ collection (store_path Demo.env 5) Demo.first_build.2
       = collection (store_path Demo.env 5) Demo.empty_world ++ added
    /\ Forall (fun e =>
                 entry_embedding e = embed Demo.env (page_content (entry_document e))
                 /\ page_content (entry_document e) <> ""
                 /\ stripped (page_content (entry_document e))
                 /\ Py.len (page_content (entry_document e)) <= 1000
                 /\ exists b : string * string,
                      b ∈ blobs
                      /\ file_filter [".py"] (Py.os_path_join d b.1) = true
                      /\ metadata (entry_document e) !! "source" = Some b.1)
         added.
Proof.
  apply (X9_entries_provenance Demo.env Demo.url "main" [".py"] 5 Demo.empty_world
           Demo.first_build.2
           {| file_count := 2; chunk_count := 1; vector_store_path := Demo.store |}).
  vm_compute. reflexivity.
Defined.

Section EmptyBatchFacts.
Context {Embedding : Type}.
Variable env : Env Embedding.

(** A build that succeeds has stored at least one chunk. *)
Lemma load_success_chunks repo_url branch file_extensions repo_id (w w' : World Embedding) r :
  load_and_index_repository env repo_url branch file_extensions repo_id w
    = (Success r, w') ->
  1 <= chunk_count r.
Proof.
  unfold load_and_index_repository. intros H.
  destruct (mkdtemp env (dirs w)) as [e|d]; [simpl in H; congruence|].
  unfold index_in, bind, lift, ret, makedirs, from_documents, modify, check in H.
  destruct (GitLoader_load env repo_url d branch (file_filter file_extensions))
    as [e|documents]; [simpl in H; congruence|].
  destruct documents as [|doc rest]; [simpl in H; congruence|].
  cbn [Py.nonempty negb] in H. cbv iota in H.
  destruct (load_embedder_fault env); [simpl in H; congruence|].
  destruct (makedirs_fault env (store_path env repo_id)); [simpl in H; congruence|].
  destruct (embed_fault env _); [simpl in H; congruence|].
  destruct (persist_fault env (store_path env repo_id)); [simpl in H; congruence|].
  destruct (split_documents (text_splitter file_extensions) (doc :: rest)) as [|c cs] eqn:E.
  { simpl in H. congruence. }
  cbn [Py.nonempty] in H. cbn beta iota in H. injection H as <- _.
  cbn [chunk_count length]. lia.
Qed.

Lemma split_documents_blank language size overlap documents :
  Forall (fun doc => Py.len (page_content doc) < size
                     /\ Py.strip (page_content doc) = "") documents ->
  split_documents (TextSplitter.from_language language size overlap) documents = [].
Proof.
  unfold split_documents. induction 1 as [|doc rest [Hlt Hblank] _ IH]; [done|].
  cbn [flat_map]. rewrite IH, split_text_short by done. by rewrite Hblank.
Qed.

End EmptyBatchFacts.

(** X23. A repository whose files that pass the filter are all empty or
    blank (each shorter than 1000 characters) cannot be built: no chunk
    comes out of its files, Chroma refuses to add nothing, and the build
    answers with a failure and leaves every collection as it was. *)
Theorem X23_blank_files_fail {Embedding} (env : Env Embedding)
    repo_url branch file_extensions repo_id (w : World Embedding) blobs :
  git_blobs env repo_url branch = inr blobs ->
  (forall d (b : string * string),
     mkdtemp env (dirs w) = inr d ->
     b ∈ blobs ->
     file_filter file_extensions (Py.os_path_join d b.1) = true ->
     Py.len b.2 < 1000 /\ Py.strip b.2 = "") ->
  (exists e,
     (load_and_index_repository env repo_url branch file_extensions repo_id w).1
     = Failure e)
  /\ forall path,
       collection path
         (load_and_index_repository env repo_url branch file_extensions repo_id w).2
       = collection path w.
Proof.
  intros Hb Hblank.
  destruct (load_collections env repo_url branch file_extensions repo_id w)
    as [(e & He & Hc)|(r & entries & Hr & _)].
  { split; [by exists e|]. intros path. unfold collection. by rewrite Hc. }
  exfalso.
  destruct (load_and_index_repository env repo_url branch file_extensions repo_id w)
    as [res w'] eqn:H.
  simpl in Hr. subst res.
  pose proof (load_success_chunks env _ _ _ _ _ _ _ H) as Hchunks.
  apply load_success in H as (d & docs & Hd & Hload & _ & -> & _).
  cbn [chunk_count] in Hchunks.
  apply load_docs in Hload as (blobs' & Hb' & _ & Hdocs).
  assert (blobs' = blobs) as -> by congruence.
  unfold text_splitter in Hchunks. rewrite split_documents_blank in Hchunks.
  { simpl in Hchunks. lia. }
  apply Forall_forall. intros doc Hdoc.
  apply list_elem_of_lookup in Hdoc as [i Hi].
  destruct (Forall2_lookup_l _ _ _ _ _ Hdocs Hi) as (b & Hbi & Hpc & _).
  apply list_elem_of_lookup_2, list_elem_of_filter in Hbi as [Hf Hin].
  rewrite Hpc. by apply (Hblank d b).
Qed.

Lemma X23_witness :
  (exists e,
     (load_and_index_repository Demo.env Demo.url "main" ["__init__.py"] 5
        Demo.empty_world).1 = Failure e)
  /\ forall path,
       collection path
         (load_and_index_repository Demo.env Demo.url "main" ["__init__.py"] 5
            Demo.empty_world).2
       = collection path Demo.empty_world.
Proof.
  apply (X23_blank_files_fail Demo.env Demo.url "main" ["__init__.py"] 5
           Demo.empty_world Demo.blobs).
  - reflexivity.
  - intros d b Hd Hb Hf.
    assert (d = "/tmp/tmpclone") as -> by (vm_compute in Hd; congruence).
    unfold Demo.blobs in Hb.
    repeat (apply elem_of_cons in Hb as [Hb|Hb];
            [subst b; first [by vm_compute in Hf|split; [cbn; lia|reflexivity]]|]).
    by apply elem_of_nil in Hb.
Defined.

(** ** Further properties of the query pipeline *)

Section MoreChatFacts.
Context {Embedding : Type}.
Variable env : Env Embedding.

(** The history is read turn by turn: the first turn without a role or
    without a content raises the [KeyError] of that key. *)
Lemma format_history_missing before msg after key :
  Forall (fun m : gmap string string =>
            is_Some (m !! "role") /\ is_Some (m !! "content")) before ->
  (key = "role" /\ msg !! "role" = None)
  \/ (key = "content" /\ is_Some (msg !! "role") /\ msg !! "content" = None) ->
  format_history (before ++ msg :: after) = inl ("'" +:+ key +:+ "'").
Proof.
  intros Hbefore Hmsg.
  induction Hbefore as [|m before [[role Hr] [text Hc]] _ IH].
  - cbn [app format_history]. unfold getitem.
    destruct Hmsg as [[-> Hr]|(-> & [role Hr] & Hc)].
    + by rewrite Hr.
    + by rewrite Hr, Hc.
  - rewrite <- app_comm_cons. cbn [format_history]. unfold getitem at 1 2.
    rewrite Hr, Hc. cbn [bind_exn]. by rewrite IH.
Qed.

End MoreChatFacts.

(** X10. When the model client, the embedding model and the vector store
    open without error, a chat history in which a turn has no role, or has
    a role and no content, makes [get_response] fail with the text of the
    [KeyError] of the missing key, the first such turn deciding. *)
Theorem X10_missing_key_fails {Embedding} (env : Env Embedding)
    question path (w : World Embedding) before msg after :
  llm_init_fault env chat_llm = None ->
  load_embedder_fault env = None ->
  chroma_open_fault env path = None ->
  Forall (fun m : gmap string string =>
            is_Some (m !! "role") /\ is_Some (m !! "content")) before ->
  (msg !! "role" = None ->
   get_response env question path (before ++ msg :: after) w = Failure "'role'")
  /\ (is_Some (msg !! "role") -> msg !! "content" = None ->
      get_response env question path (before ++ msg :: after) w = Failure "'content'").
Proof.
  intros Hllm Hload Hopen Hbefore. unfold get_response, get_vector_store.
  rewrite Hllm, Hload, Hopen. cbn [check bind_exn]. split.
  - intros Hr. rewrite (format_history_missing before msg after "role"); auto.
  - intros Hr Hc. rewrite (format_history_missing before msg after "content"); auto.
Qed.

Lemma X10_witness :
  (({[ "content" := "It prints hi." ]} : gmap string string) !! "role" = None ->
   get_response Demo.env Demo.question Demo.store Worlds.broken_history Demo.indexed_world
   = Failure "'role'")
  /\ (is_Some (({[ "content" := "It prints hi." ]} : gmap string string) !! "role") ->
      ({[ "content" := "It prints hi." ]} : gmap string string) !! "content" = None ->
      get_response Demo.env Demo.question Demo.store Worlds.broken_history
        Demo.indexed_world
      = Failure "'content'").
Proof.
  apply (X10_missing_key_fails Demo.env Demo.question Demo.store Demo.indexed_world
           [Demo.turn "user" "What does app.py do?"]
           {[ "content" := "It prints hi." ]} []).
  - reflexivity.
  - reflexivity.
  - reflexivity.
  - repeat constructor; by eexists.
Defined.

(** ** Further properties of the issue pipelines *)

Section MoreIssueFacts.

Lemma lower_append a b : Py.lower (a +:+ b) = Py.lower a +:+ Py.lower b.
Proof.
  induction a as [|c a IH]; [done|].
  rewrite append_cons. simpl. by rewrite IH.
Qed.

Lemma or_else_lower x : or_else (Py.lower <$> x) "" = Py.lower (or_else x "").
Proof.
  destruct x as [s|]; [|done]. simpl. rewrite truthy_lower.
  by destruct (Py.truthy s).
Qed.

(** With no keyword every issue is kept. *)
Lemma filter_no_keyword (listing : list Issue) : filter (kept "") listing = listing.
Proof.
  induction listing as [|issue rest IH]; [done|].
  rewrite filter_cons_True by done. by rewrite IH.
Qed.

(** With keywords made of blanks no issue is kept. *)
Lemma filter_blank_keywords keywords (listing : list Issue) :
  keywords <> "" -> all_blank keywords = true -> filter (kept keywords) listing = [].
Proof.
  intros Hne Hblank. induction listing as [|issue rest IH]; [done|].
  rewrite filter_cons_False; [done|].
  unfold kept, keyword_match, Py.truthy.
  apply String.eqb_neq in Hne. rewrite Hne. cbn [negb].
  rewrite split_all_blank by (by rewrite all_blank_lower). done.
Qed.

(** While no issue is kept and the cap is not reached, the loop reads the
    listing to its end. *)
Lemma search_loop_none_kept keywords max_results (listing : list Issue) issues_list :
  filter (kept keywords) listing = [] ->
  (Z.of_nat (length issues_list) < max_results)%Z ->
  search_loop keywords max_results listing issues_list = (issues_list, []).
Proof.
  intros Hnone Hlt. induction listing as [|issue rest IH]; [done|].
  cbn [search_loop]. destruct (Z.leb_spec max_results (Z.of_nat (length issues_list))); [lia|].
  destruct (keyword_match keywords issue) eqn:Hk.
  - by rewrite filter_cons_True in Hnone.
  - rewrite filter_cons_False in Hnone by (unfold kept; by rewrite Hk). by apply IH.
Qed.

Lemma length_split_on c s : length (Py.split_on c s) = S (count_char c s).
Proof.
  induction s as [|a s IH]; [done|]. simpl.
  destruct (Ascii.eqb a c); simpl; [by rewrite IH|].
  destruct (Py.split_on c s); simpl in *; lia.
Qed.

End MoreIssueFacts.

(** X14. The data of an analysed issue are those of the issue: title,
    number, state, labels, url, author and dates as the tracker gave them.
    The body is returned whole, whatever its length; an issue without a
    body, or with an empty one, gets the body "No description provided". *)
Theorem X14_issue_metadata {Embedding} (env : Env Embedding) repo_name issue_number data :
  analyze_issue env repo_name issue_number = Success data ->
  exists repo issue,
    get_repo env repo_name = inr repo
    /\ get_issue repo issue_number = inr issue
    /\ d_title data = title issue
    /\ d_number data = number issue
    /\ d_state data = state issue
    /\ d_labels data = labels issue
    /\ d_comments_count data = comments issue
    /\ d_url data = html_url issue
    /\ d_user data = user_login issue
    /\ d_created_at data = created_at issue
    /\ d_updated_at data = updated_at issue
    /\ (forall text, body issue = Some text -> text <> "" -> d_body data = text)
    /\ (body issue = None \/ body issue = Some "" ->
        d_body data = "No description provided").
Proof.
  intros H. apply analyze_issue_success in H as (repo & issue & analysis & Hr & Hi & _ & ->).
  exists repo, issue. do 11 (split; [done|]).
  cbn [d_body with_analysis issue_data]. split.
  - intros text -> Hne. simpl. unfold Py.truthy.
    apply String.eqb_neq in Hne. by rewrite Hne.
  - by intros [->| ->].
Qed.

Lemma X14_witness :
  exists repo issue,
    get_repo Demo.env "ana/app" = inr repo
    /\ get_issue repo 7 = inr issue
    /\ d_title (with_analysis (issue_data Demo.issue7) "It crashes because of X.")
       = title issue
    /\ d_number (with_analysis (issue_data Demo.issue7) "It crashes because of X.")
       = number issue
    /\ d_state (with_analysis (issue_data Demo.issue7) "It crashes because of X.")
       = state issue
    /\ d_labels (with_analysis (issue_data Demo.issue7) "It crashes because of X.")
       = labels issue
    /\ d_comments_count (with_analysis (issue_data Demo.issue7) "It crashes because of X.")
       = comments issue
    /\ d_url (with_analysis (issue_data Demo.issue7) "It crashes because of X.")
       = html_url issue
    /\ d_user (with_analysis (issue_data Demo.issue7) "It crashes because of X.")
       = user_login issue
    /\ d_created_at (with_analysis (issue_data Demo.issue7) "It crashes because of X.")
       = created_at issue
    /\ d_updated_at (with_analysis (issue_data Demo.issue7) "It crashes because of X.")
       = updated_at issue
    /\ (forall text, body issue = Some text -> text <> "" ->
        d_body (with_analysis (issue_data Demo.issue7) "It crashes because of X.") = text)
    /\ (body issue = None \/ body issue = Some "" ->
        d_body (with_analysis (issue_data Demo.issue7) "It crashes because of X.")
        = "No description provided").
Proof.
  apply (X14_issue_metadata Demo.env "ana/app" 7). reflexivity.
Defined.

(** X15. Without keywords [search_issues] filters nothing: it returns the
    first [max_results] issues of the listing, in its order, or the whole
    listing when it is shorter. *)
Theorem X15_search_without_keywords {Embedding} (env : Env Embedding)
    repo_name label_text state_filter max_results issues_list remaining :
  search_issues env repo_name "" label_text state_filter max_results
    = (Success issues_list, remaining) ->
  exists repo listing,
    get_repo env repo_name = inr repo
    /\ get_issues repo state_filter (label_list label_text) = inr listing
    /\ issues_list = map issue_summary (take (Z.to_nat max_results) listing)
    /\ length issues_list = min (Z.to_nat max_results) (length listing).
Proof.
  unfold search_issues. intros H.
  destruct (get_repo env repo_name) as [e|repo] eqn:Hrepo; [done|].
  cbn [bind_exn] in H.
  destruct (get_issues repo state_filter (label_list label_text)) as [e|listing] eqn:Hl;
    [done|].
  cbn [bind_exn] in H.
  pose proof (search_loop_result "" max_results listing []) as Hres.
  destruct (search_loop "" max_results listing []) as [res rest].
  cbn [fst] in Hres. rewrite app_nil_l, Nat.sub_0_r, filter_no_keyword in Hres.
  assert (issues_list = res) as -> by congruence.
  exists repo, listing. do 3 (split; [done|]).
  by rewrite Hres, length_map, length_take.
Qed.

Lemma X15_witness :
  exists repo listing,
    get_repo Demo.env "ana/app" = inr repo
    /\ get_issues repo "open" (label_list "bug") = inr listing
    /\ [issue_summary Demo.issue7; issue_summary Demo.issue8]
       = map issue_summary (take (Z.to_nat 2) listing)
    /\ length [issue_summary Demo.issue7; issue_summary Demo.issue8]
       = min (Z.to_nat 2) (length listing).
Proof.
  apply (X15_search_without_keywords Demo.env "ana/app" "bug" "open" 2
           [issue_summary Demo.issue7; issue_summary Demo.issue8] []).
  reflexivity.
Defined.

(** X16. Keywords that are not empty and hold only blanks match no issue:
    for a positive cap [search_issues] reads the whole listing and returns
    no issue. *)
Theorem X16_blank_keywords_match_nothing {Embedding} (env : Env Embedding)
    repo_name keywords label_text state_filter max_results issues_list remaining :
  keywords <> "" ->
  all_blank keywords = true ->
  (0 < max_results)%Z ->
  search_issues env repo_name keywords label_text state_filter max_results
    = (Success issues_list, remaining) ->
  issues_list = [] /\ remaining = [].
Proof.
  intros Hne Hblank Hmax. unfold search_issues. intros H.
  destruct (get_repo env repo_name) as [e|repo]; [done|]. cbn [bind_exn] in H.
  destruct (get_issues repo state_filter (label_list label_text)) as [e|listing]; [done|].
  cbn [bind_exn] in H.
  rewrite search_loop_none_kept in H.
  - split; congruence.
  - by apply filter_blank_keywords.
  - simpl. lia.
Qed.

Lemma X16_witness :
  search_issues Demo.env "ana/app" "  " "" "open" 10 = (Success [], [])
  /\ ([] : list IssueSummary) = [] /\ ([] : list Issue) = [].
Proof.
  split; [reflexivity|].
  apply (X16_blank_keywords_match_nothing Demo.env "ana/app" "  " "" "open" 10).
  - discriminate.
  - reflexivity.
  - lia.
  - reflexivity.
Defined.

(** X17. The keyword test ignores case, in the keywords and in the issue:
    lower-casing the keywords, or the title and the body of the issue, does
    not change which issues are kept. *)
Theorem X17_keywords_ignore_case (keywords : string) (issue : Issue) :
  keyword_match (Py.lower keywords) issue = keyword_match keywords issue
  /\ keyword_match keywords
       (with_text issue (Py.lower (title issue)) (Py.lower <$> body issue))
     = keyword_match keywords issue.
Proof.
  unfold keyword_match. split.
  - by rewrite truthy_lower, lower_idem.
  - cbn [title body with_text].
    by rewrite !lower_append, or_else_lower, !lower_idem.
Qed.

(** X18. The labels of [search_issues]: none for an empty text; otherwise
    one label more than the text has commas (two commas in a row give an
    empty label), and no label begins or ends with a blank. *)
Theorem X18_label_list_shape (label_text : string) :
  (label_text = "" -> label_list label_text = [])
  /\ (label_text <> "" ->
      length (label_list label_text) = S (count_char "," label_text)
      /\ Forall stripped (label_list label_text)).
Proof.
  unfold label_list, Py.truthy. split.
  - by intros ->.
  - intros Hne. apply String.eqb_neq in Hne. rewrite Hne. cbn [negb]. split.
    + by rewrite length_map, length_split_on.
    + apply Forall_fmap, Forall_forall. intros l _. apply strip_stripped.
Qed.


(** ** Keywords, and the text of a chat message *)

Section KeywordFacts.

Lemma rev_not_nil s : s <> "" -> String.rev s <> "".
Proof.
  intros Hne Hrev. apply Hne. apply len_zero. rewrite <- len_rev. by rewrite Hrev.
Qed.

(** The words of [s.split()] are not empty. *)
Lemma split_go_not_nil s : forall cur,
  (forall c, cur = Some c -> c <> "") ->
  Forall (fun word => word <> "") (Py.split_go cur s).
Proof.
  induction s as [|a s IH]; intros cur Hcur; cbn [Py.split_go].
  - destruct cur as [c|]; simpl; [|done].
    apply Forall_singleton, rev_not_nil. by apply Hcur.
  - destruct (Py.isspace a).
    + apply Forall_app. split; [|by apply IH].
      destruct cur as [c|]; simpl; [|done].
      apply Forall_singleton, rev_not_nil. by apply Hcur.
    + apply IH. by intros c [= <-].
Qed.

End KeywordFacts.

(** X20. With keywords, an issue is kept exactly when one of the words of
    the keywords, lower-cased, occurs in the lower-cased text made of the
    title, a space and the body; the words are never empty, so no word
    matches every issue. *)
Theorem X20_keyword_match_spec (keywords : string) (issue : Issue) :
  keywords <> "" ->
  Forall (fun word => word <> "") (Py.split (Py.lower keywords))
  /\ (keyword_match keywords issue = true
      <-> exists word before after,
            word ∈ Py.split (Py.lower keywords)
            /\ Py.lower (title issue +:+ " " +:+ or_else (body issue) "")
               = before +:+ word +:+ after).
Proof.
  intros Hne. split; [by apply split_go_not_nil|].
  unfold keyword_match, Py.truthy. apply String.eqb_neq in Hne. rewrite Hne.
  cbn [negb]. rewrite existsb_exists. split.
  - intros (word & Hin & Hc). apply contains_spec in Hc as (before & after & Hc).
    exists word, before, after. by rewrite list_elem_of_In.
  - intros (word & before & after & Hin & Hc). exists word.
    rewrite <- list_elem_of_In. split; [done|]. apply contains_spec. by exists before, after.
Qed.

Lemma X20_witness :
  Forall (fun word => word <> "") (Py.split (Py.lower "Docs  TYPO"))
  /\ (keyword_match "Docs  TYPO" Demo.issue9 = true
      <-> exists word before after,
            word ∈ Py.split (Py.lower "Docs  TYPO")
            /\ Py.lower (title Demo.issue9 +:+ " " +:+ or_else (body Demo.issue9) "")
               = before +:+ word +:+ after).
Proof. apply (X20_keyword_match_spec "Docs  TYPO" Demo.issue9). discriminate. Defined.

(** X21. The text of a chat message shows its role and at most the first
    50 characters of its content: it is never longer than the role plus 52
    characters, and a content of at most 50 characters is shown whole. *)
Theorem X21_message_text (m : Models.ChatMessage) :
  Py.len (Models.ChatMessage_str m) <= Py.len (Models.role m) + 52
  /\ (Py.len (Models.message_content m) <= 50 ->
      Models.ChatMessage_str m = Models.role m +:+ ": " +:+ Models.message_content m).
Proof.
  unfold Models.ChatMessage_str. split.
  - rewrite !len_append. pose proof (len_take 50 (Models.message_content m)).
    change (Py.len ": ") with 2. lia.
  - intros Hle. by rewrite take_all.
Qed.
